(** * mlcms_general: the notebooks' data pipeline

  A shallow embedding of the glue code of the three tutorial notebooks
  (linear regression, neural-network regression of Young's modulus,
  neural-network classification of crystal structures):

  - Python slices and the train/test partition;
  - per-column standard-score normalisation (NumPy [mean]/[std] and
    [nanmean]/[nanstd] along axis 0, broadcast subtraction and division);
  - the property-table builder with its manual patches (pandas);
  - the one-hot label assembly of the classification notebook;
  - the evaluation reports, the Plotly traces and the [fit] call;
  - the split of labels from features, the linear regression's query loop,
    the table of predicted crystal structures and the bar chart of the
    predicted probabilities.

  Arrays of dtype [float] are IEEE 754 binary64 numbers (Rocq's primitive
  floats); the normaliser is written once over the arithmetic it uses, and
  read both over binary64 (what the notebooks compute) and over the real
  numbers (exact arithmetic). *)

From Stdlib Require Import ZArith List Lia Floats Reals Lra.
From stdpp Require Import base list strings pretty.

Set Warnings "-inexact-float".

(** ** Python slices *)

Module Py.

(** A slice bound [i] over a sequence of length [n]: a negative bound counts
    from the end, and every bound is clamped into [0..n]. *)
Definition bound (n : nat) (i : Z) : nat :=
  if (i <? 0)%Z then Z.to_nat (Z.max 0 (Z.of_nat n + i))
  else Nat.min n (Z.to_nat i).

(** [l[:stop]] *)
Definition slice_to {A} (stop : Z) (l : list A) : list A :=
  take (bound (length l) stop) l.

(** [l[start:]] *)
Definition slice_from {A} (start : Z) (l : list A) : list A :=
  drop (bound (length l) start) l.

(** [range(n)], [np.arange(n)] *)
Definition range (n : nat) : list nat := seq 0 n.

Lemma bound_nonneg n (k : nat) : bound n (Z.of_nat k) = Nat.min n k.
Proof.
  unfold bound. destruct (Z.ltb_spec (Z.of_nat k) 0); [lia|].
  by rewrite Nat2Z.id.
Qed.

Lemma bound_neg n (k : nat) :
  0 < k → bound n (- Z.of_nat k) = n - k.
Proof.
  intros Hk. unfold bound.
  destruct (Z.ltb_spec (- Z.of_nat k) 0); lia.
Qed.

Lemma bound_neg_zero n : bound n (- Z.of_nat 0) = 0.
Proof. unfold bound. simpl. lia. Qed.

End Py.

(** ** Train/test partition

  [train_values = all_values[:44]] and [test_values = all_values[-5:]]
  (44/5 of 49 rows for Young's modulus, 40/7 of 47 for the classifier, 45/6
  of 51 in the linear regression), with the two counts as parameters. *)

Module Partition.

Definition train_rows {A} (training_count : nat) (l : list A) : list A :=
  Py.slice_to (Z.of_nat training_count) l.

Definition test_rows {A} (testing_count : nat) (l : list A) : list A :=
  Py.slice_from (- Z.of_nat testing_count) l.

(** The row indices of each side, as the notebook takes them from [order]:
    [order[-5:]] of [order = np.arange(49)]. *)
Definition train_index (training_count row_count : nat) : list nat :=
  train_rows training_count (Py.range row_count).

Definition test_index (testing_count row_count : nat) : list nat :=
  test_rows testing_count (Py.range row_count).

Lemma train_rows_take {A} tc (l : list A) : train_rows tc l = take tc l.
Proof.
  unfold train_rows, Py.slice_to. rewrite Py.bound_nonneg.
  destruct (Nat.le_gt_cases (length l) tc).
  - rewrite Nat.min_l by done. by rewrite !take_ge.
  - by rewrite Nat.min_r by lia.
Qed.

Lemma test_rows_drop {A} k (l : list A) :
  0 < k → test_rows k l = drop (length l - k) l.
Proof.
  intros Hk. unfold test_rows, Py.slice_from. by rewrite Py.bound_neg.
Qed.

(** A testing count of zero slices from [-0 = 0]: the whole sequence. *)
Lemma test_rows_zero {A} (l : list A) : test_rows 0 l = l.
Proof. unfold test_rows, Py.slice_from. by rewrite Py.bound_neg_zero. Qed.

Lemma elem_of_train_index tc n i : i ∈ train_index tc n → i < tc.
Proof.
  unfold train_index. rewrite train_rows_take.
  intros [j Hj]%list_elem_of_lookup.
  apply lookup_take_Some in Hj as [Hj ?].
  apply lookup_seq in Hj. lia.
Qed.

Lemma elem_of_test_index k n i : 0 < k → i ∈ test_index k n → n - k ≤ i.
Proof.
  intros Hk. unfold test_index. rewrite test_rows_drop by done.
  unfold Py.range. rewrite length_seq.
  intros [j Hj]%list_elem_of_lookup.
  rewrite lookup_drop in Hj. apply lookup_seq in Hj. lia.
Qed.

End Partition.

(** ** NumPy reductions and broadcasting

    The arithmetic of an array's dtype is an interface; [float64] below is
    the notebooks' [dtype = float], [exact] the real numbers. *)

Module Np.

Class Dtype (A : Type) := {
  zero : A;
  add : A → A → A;
  sub : A → A → A;
  mul : A → A → A;
  div : A → A → A;
  sqrt : A → A;
  abs : A → A;
  of_nat : nat → A;
  isnan : A → bool;
  ltb : A → A → bool
}.

#[global] Instance float64 : Dtype float := {|
  zero := 0%float;
  add := PrimFloat.add;
  sub := PrimFloat.sub;
  mul := PrimFloat.mul;
  div := PrimFloat.div;
  sqrt := PrimFloat.sqrt;
  abs := PrimFloat.abs;
  of_nat n := PrimFloat.of_uint63 (Uint63.of_Z (Z.of_nat n));
  isnan := PrimFloat.is_nan;
  ltb := PrimFloat.ltb
|}.

#[global] Instance exact : Dtype R := {|
  zero := 0%R;
  add := Rplus;
  sub := Rminus;
  mul := Rmult;
  div := Rdiv;
  sqrt := R_sqrt.sqrt;
  abs := Rabs;
  of_nat := INR;
  isnan _ := false;
  ltb x y := if Rlt_dec x y then true else false
|}.

Section Reductions.
Context {A : Type} `{Dtype A}.

(** [np.sum] of one column: the rows are accumulated in order, as NumPy
    does along axis 0 of the notebooks' tables of 16 and 18 columns (for a
    table of a single column and eight rows or more NumPy adds pairwise,
    and the last bits can differ). *)
Definition sum (l : list A) : A := foldl add zero l.

(** [np.mean]: the sum divided by the number of items. *)
Definition mean (l : list A) : A := div (sum l) (of_nat (length l)).

(** [np.var]: the mean of the squared deviations from [mean]. *)
Definition var (l : list A) : A :=
  let arrmean := mean l in
  let x := (λ a, sub a arrmean) <$> l in
  div (sum ((λ d, mul d d) <$> x)) (of_nat (length l)).

(** [np.std] *)
Definition std (l : list A) : A := sqrt (var l).

(** [np.nanmean]: NaN items count as zero in the sum and are left out of
    the count. *)
Definition count_valid (l : list A) : nat :=
  length (filter (λ a, isnan a = false) l).

Definition nanmean (l : list A) : A :=
  div (sum ((λ a, if isnan a then zero else a) <$> l)) (of_nat (count_valid l)).

(** [np.nanvar], [np.nanstd]: the deviations of the NaN items are set to
    zero, and the sum of squares is divided by the count of the others. *)
Definition nanvar (l : list A) : A :=
  let avg := nanmean l in
  let x := (λ a, if isnan a then zero else sub a avg) <$> l in
  div (sum ((λ d, mul d d) <$> x)) (of_nat (count_valid l)).

Definition nanstd (l : list A) : A := sqrt (nanvar l).

(** Column [j] of a two-dimensional array held as a list of rows. *)
Definition column (j : nat) (rows : list (list A)) : list A :=
  omap (λ row : list A, row !! j) rows.

(** A reduction along [axis = 0]: one result per column. *)
Definition axis0 (f : list A → A) (ncols : nat) (rows : list (list A)) : list A :=
  (λ j, f (column j rows)) <$> seq 0 ncols.

(** [rows op v] with [v] broadcast over the rows. *)
Definition broadcast (op : A → A → A) (rows : list (list A)) (v : list A) :
    list (list A) :=
  (λ row, zip_with op row v) <$> rows.

Lemma column_cons j row rows :
  column j (row :: rows) =
  match row !! j with
  | Some x => x :: column j rows
  | None => column j rows
  end.
Proof. reflexivity. Qed.

Lemma length_axis0 f ncols rows : length (axis0 f ncols rows) = ncols.
Proof. unfold axis0. by rewrite length_fmap, length_seq. Qed.

Lemma lookup_axis0 f ncols rows j :
  j < ncols → axis0 f ncols rows !! j = Some (f (column j rows)).
Proof.
  intros Hj. unfold axis0. rewrite list_lookup_fmap.
  by rewrite lookup_seq_lt.
Qed.

Lemma lookup_broadcast op rows v i row :
  rows !! i = Some row →
  broadcast op rows v !! i = Some (zip_with op row v).
Proof. intros Hi. unfold broadcast. by rewrite list_lookup_fmap, Hi. Qed.

Lemma lookup_broadcast_cell op rows v i j row x y :
  rows !! i = Some row → row !! j = Some x → v !! j = Some y →
  ∃ row', broadcast op rows v !! i = Some row' ∧ row' !! j = Some (op x y).
Proof.
  intros Hi Hx Hy. eexists. split; [by apply lookup_broadcast|].
  rewrite lookup_zip_with, Hx. simpl. by rewrite Hy.
Qed.

Lemma column_broadcast op rows v j y :
  v !! j = Some y →
  column j (broadcast op rows v) = (λ x, op x y) <$> column j rows.
Proof.
  intros Hy. unfold broadcast.
  induction rows as [|row rows IH]; [done|].
  rewrite fmap_cons, !column_cons, lookup_zip_with, Hy, IH.
  by destruct (row !! j).
Qed.

End Reductions.
End Np.

(** ** Standard-score normalisation

    [[
    mean = np.mean(train_values, axis = 0)
    std = np.std(train_values, axis = 0)
    train_values = (train_values - mean) / std
    test_values = (test_values - mean) / std
    ]]
    The classification notebook calls [np.nanmean] and [np.nanstd]. *)

Module Normalizer.
Import Np.

Record scaled (A : Type) := Scaled {
  mean : list A;
  std : list A;
  train_values : list (list A);
  test_values : list (list A)
}.
Arguments Scaled {A}.
Arguments mean {A}.
Arguments std {A}.
Arguments train_values {A}.
Arguments test_values {A}.

(** The two notebooks that normalise. *)
Inductive notebook := NeuralRegression | Classifier.

Section Pipeline.
Context {A : Type} `{Dtype A}.

Definition standard_score (fmean fstd : list A → A)
    (ncols training_count testing_count : nat) (all_values : list (list A)) :
    scaled A :=
  let train_values := Partition.train_rows training_count all_values in
  let test_values := Partition.test_rows testing_count all_values in
  let mean := axis0 fmean ncols train_values in
  let std := axis0 fstd ncols train_values in
  Scaled mean std
    (broadcast div (broadcast sub train_values mean) std)
    (broadcast div (broadcast sub test_values mean) std).

(** The regression notebook. *)
Definition normalize := standard_score Np.mean Np.std.

(** The classification notebook. *)
Definition normalize_nan := standard_score Np.nanmean Np.nanstd.

(** The statistics each of the two [notebook]s calls. *)
Definition column_mean (nb : notebook) : list A → A :=
  match nb with NeuralRegression => Np.mean | Classifier => Np.nanmean end.

Definition column_std (nb : notebook) : list A → A :=
  match nb with NeuralRegression => Np.std | Classifier => Np.nanstd end.

Definition run (nb : notebook) : nat → nat → nat → list (list A) → scaled A :=
  match nb with NeuralRegression => normalize | Classifier => normalize_nan end.

Lemma run_standard_score nb :
  run nb = standard_score (column_mean nb) (column_std nb).
Proof. by destruct nb. Qed.

Lemma scaled_cell (rows : list (list A)) (mean std : list A) i j row x m s :
  rows !! i = Some row → row !! j = Some x →
  mean !! j = Some m → std !! j = Some s →
  ∃ row', broadcast div (broadcast sub rows mean) std !! i = Some row'
          ∧ row' !! j = Some (div (sub x m) s).
Proof.
  intros Hi Hx Hm Hs.
  destruct (lookup_broadcast_cell sub rows mean i j row x m Hi Hx Hm)
    as (row1 & Hrow1 & Hcell1).
  exact (lookup_broadcast_cell div _ std i j row1 _ s Hrow1 Hcell1 Hs).
Qed.

(** Every cell of a scaled array is a cell of the input, minus the mean and
    over the deviation of its column. *)
Lemma scaled_cell_inv (rows : list (list A)) (mean std : list A) i j row' y :
  broadcast div (broadcast sub rows mean) std !! i = Some row' →
  row' !! j = Some y →
  ∃ row x m s, rows !! i = Some row ∧ row !! j = Some x
    ∧ mean !! j = Some m ∧ std !! j = Some s ∧ y = div (sub x m) s.
Proof.
  unfold broadcast. rewrite <- list_fmap_compose, list_lookup_fmap.
  destruct (rows !! i) as [row|] eqn:Hrow; [|done].
  intros [= <-]. unfold compose.
  intros (d & s & -> & (x & m & -> & Hx & Hm)%lookup_zip_with_Some & Hs)
    %lookup_zip_with_Some.
  by exists row, x, m, s.
Qed.

End Pipeline.
End Normalizer.

(** ** Exact arithmetic

    The reductions read over the real numbers. *)

Module Exact.
Import Np.
Local Open Scope R_scope.

Lemma foldl_Rplus (l : list R) a : foldl Rplus a l = a + foldl Rplus 0 l.
Proof.
  revert a. induction l as [|x l IH]; intros a; simpl; [lra|].
  rewrite (IH (a + x)), (IH (0 + x)). lra.
Qed.

Lemma sum_nil : Np.sum ([] : list R) = 0.
Proof. reflexivity. Qed.

Lemma sum_cons (x : R) l : Np.sum (x :: l) = x + Np.sum l.
Proof.
  unfold Np.sum. simpl. rewrite foldl_Rplus.
  change (0 + x + foldl Rplus 0 l = x + foldl Rplus 0 l). lra.
Qed.

Lemma sum_affine (l : list R) m s :
  Np.sum ((λ x, (x - m) / s) <$> l) = (Np.sum l - INR (length l) * m) / s.
Proof.
  induction l as [|x l IH].
  - rewrite fmap_nil, sum_nil. simpl. lra.
  - rewrite fmap_cons, !sum_cons, IH. rewrite length_cons, S_INR. lra.
Qed.

Lemma sum_scaled_squares (l : list R) m s :
  Np.sum ((λ d, d * d) <$> ((λ a, a - 0) <$> ((λ x, (x - m) / s) <$> l))) =
  Np.sum ((λ d, d * d) <$> ((λ a, a - m) <$> l)) / (s * s).
Proof.
  induction l as [|x l IH].
  - rewrite !fmap_nil, sum_nil. lra.
  - rewrite !fmap_cons, !sum_cons, IH.
    destruct (Req_dec s 0) as [->|Hs].
    + unfold Rdiv. rewrite Rmult_0_r, !Rinv_0. lra.
    + field. done.
Qed.

Lemma sum_squares_nonneg (l : list R) : 0 <= Np.sum ((λ d, d * d) <$> l).
Proof.
  induction l as [|x l IH].
  - rewrite fmap_nil, sum_nil. lra.
  - rewrite fmap_cons, sum_cons. nra.
Qed.

Lemma mean_standardised (l : list R) s :
  Np.mean ((λ x, (x - Np.mean l) / s) <$> l) = 0.
Proof.
  unfold Np.mean at 1. rewrite sum_affine, length_fmap.
  destruct l as [|x l'] eqn:El.
  - simpl. rewrite sum_nil. lra.
  - rewrite <- El. assert (INR (length l) <> 0) as Hn.
    { subst l. rewrite length_cons, S_INR. pose proof (pos_INR (length l')). lra. }
    unfold Np.mean. simpl.
    replace (Np.sum l - INR (length l) * (Np.sum l / INR (length l))) with 0
      by (field; done).
    lra.
Qed.

Lemma var_nonneg (l : list R) : 0 <= Np.var l.
Proof.
  unfold Np.var. cbn zeta. simpl.
  pose proof (sum_squares_nonneg ((λ a, a - Np.mean l) <$> l)) as Hs.
  destruct (Req_dec (INR (length l)) 0) as [->|Hn].
  - unfold Rdiv. rewrite Rinv_0. lra.
  - apply Rmult_le_pos; [done|].
    apply Rlt_le, Rinv_0_lt_compat. pose proof (pos_INR (length l)). lra.
Qed.

Lemma std_standardised (l : list R) :
  Np.std l <> 0 →
  Np.std ((λ x, (x - Np.mean l) / Np.std l) <$> l) = 1.
Proof.
  intros Hs. unfold Np.std at 1. unfold Np.var. cbn zeta.
  rewrite mean_standardised, length_fmap.
  cbn [mul sub div sqrt of_nat exact].
  rewrite sum_scaled_squares.
  assert (0 < Np.var l) as Hvar.
  { destruct (Rle_lt_or_eq_dec _ _ (var_nonneg l)) as [|Heq]; [done|].
    exfalso. apply Hs. unfold Np.std. cbn [sqrt exact].
    rewrite <- Heq. apply sqrt_0. }
  assert (Np.std l * Np.std l = Np.var l) as ->.
  { unfold Np.std. cbn [sqrt exact]. apply sqrt_sqrt. lra. }
  assert (INR (length l) <> 0) as Hn.
  { intros Hn. unfold Np.var in Hvar. cbn zeta in Hvar.
    cbn [div of_nat exact] in Hvar. rewrite Hn in Hvar.
    unfold Rdiv in Hvar. rewrite Rinv_0 in Hvar. lra. }
  replace (_ / _ / _) with 1; [apply sqrt_1|].
  unfold Np.var in *. cbn zeta in *. cbn [mul sub div of_nat exact] in *.
  field. split; [done|]. intros Hz. rewrite Hz in Hvar.
  unfold Rdiv in Hvar. lra.
Qed.

End Exact.

(** ** binary64 facts

    What the comparisons and the division of the pipeline need, from the
    IEEE 754 specification of the primitive operations. *)

Module F64.

Lemma eqb_zero_inv (s : float) :
  (s =? 0)%float = true → ∃ sg, Prim2SF s = S754_zero sg.
Proof.
  rewrite FloatAxioms.eqb_spec. change (Prim2SF 0) with (S754_zero false).
  destruct (Prim2SF s) as [sg|sg| |sg m e]; [by eexists|..];
    unfold SFeqb, SFcompare; try done; by destruct sg.
Qed.

Lemma is_finite_SF (x : float) :
  is_finite x =
  match Prim2SF x with S754_zero _ | S754_finite _ _ _ => true | _ => false end.
Proof.
  unfold is_finite, is_nan, is_infinity.
  rewrite !FloatAxioms.eqb_spec, abs_spec.
  change (Prim2SF infinity) with (S754_infinity false).
  destruct (Prim2SF x) as [sg|sg| |sg m e]; try (by destruct sg).
  - done.
  - unfold SFabs, SFeqb, SFcompare. rewrite Z.compare_refl, Pos.compare_refl.
    by destruct sg.
Qed.

(** Dividing by a zero, of either sign, gives NaN or an infinity. *)
Lemma div_zero_not_finite (x s : float) :
  (s =? 0)%float = true → is_finite (x / s) = false.
Proof.
  intros [sg Hs]%eqb_zero_inv.
  rewrite is_finite_SF, div_spec, Hs.
  by destruct (Prim2SF x).
Qed.

(** [==] against a finite non-zero constant holds for that number only. *)
Lemma eqb_finite_eq (a c : float) sg m e :
  Prim2SF c = S754_finite sg m e → (a =? c)%float = true → a = c.
Proof.
  intros Hc. rewrite FloatAxioms.eqb_spec, Hc. intros Heq.
  apply Prim2SF_inj. rewrite Hc.
  destruct (Prim2SF a) as [sa|sa| |sa ma ea]; unfold SFeqb, SFcompare in Heq;
    try done; try (by destruct sa); try (by destruct sg).
  assert (sa = sg ∧ ea = e ∧ ma = m) as (-> & -> & ->); [|done].
  destruct sa, sg; try done.
  - destruct (Z.compare_spec ea e) as [Hee| |]; try done.
    rewrite Pos.compare_cont_spec in Heq. simpl in Heq.
    destruct (Pos.compare_spec ma m) as [Hmm| |]; done.
  - destruct (Z.compare_spec ea e) as [Hee| |]; try done.
    rewrite Pos.compare_cont_spec in Heq. simpl in Heq.
    destruct (Pos.compare_spec ma m) as [Hmm| |]; done.
Qed.

(** A finite non-zero number, as a boolean test. *)
Definition is_number (c : float) : bool :=
  match Prim2SF c with S754_finite _ _ _ => true | _ => false end.

Lemma eqb_number_eq (a c : float) :
  is_number c = true → (a =? c)%float = true → a = c.
Proof.
  unfold is_number. destruct (Prim2SF c) eqn:Hc; try done.
  intros _. by eapply eqb_finite_eq.
Qed.

End F64.

(** ** Property Table Builder

    The query loop over the two databases, the pandas data frame and the
    block of manual patches that follows it. *)

Module Builder.

(** [getattr(element_object, i)]: a number, or [None] where the database
    has no value.  The two databases are parameters. *)
Definition database := string → string → option float.

Record DataFrame := {
  columns : list string;
  values : list (list float)
}.

(** [pd.DataFrame(all_values, columns=querable_values)]: [None] becomes the
    missing-value marker NaN. *)
Definition from_values (all_values : list (list (option float)))
    (querable_values : list string) : DataFrame :=
  {| columns := querable_values;
     values := (λ row : list (option float), default nan <$> row) <$> all_values |}.

(** [df.columns.get_loc(name)], [None] for Python's [KeyError]. *)
Definition get_loc (name : string) (cols : list string) : option nat :=
  fst <$> list_find (λ c, c = name) cols.

Section Query.
Variables mendel pymat : database.
Variables querable_mendeleev querable_pymatgen : list string.

(** The body of [for item in elements]. *)
Definition element_values (item : string) : list (option float) :=
  ((λ i, mendel item i) <$> querable_mendeleev)
  ++ ((λ i, pymat item i) <$> querable_pymatgen).

Definition query (elements : list string) : list (list (option float)) :=
  element_values <$> elements.

Lemma length_element_values item :
  length (element_values item)
  = length (querable_mendeleev ++ querable_pymatgen).
Proof. unfold element_values. by rewrite !length_app, !length_fmap. Qed.

End Query.

(** One manual patch:
    [[
    index_Cs = df.index[df['atomic_number'] == 55]
    df.iloc[index_Cs, df.columns.get_loc("...")] = 0.000097
    ]] *)
Record patch := Patch {
  atomic_number : float;
  property : string;
  value : float
}.

(** [row['atomic_number'] == z], the atomic number in column [a]. *)
Definition has_atomic_number (a : nat) (z : float) (row : list float) : bool :=
  match row !! a with
  | Some x => (x =? z)%float
  | None => false
  end.

Definition set_cell (a j : nat) (z v : float) (row : list float) : list float :=
  if has_atomic_number a z row then <[j:=v]> row else row.

Definition patch_value (p : patch) (df : DataFrame) : option DataFrame :=
  a ← get_loc "atomic_number" (columns df);
  j ← get_loc (property p) (columns df);
  Some {| columns := columns df;
          values := set_cell a j (atomic_number p) (value p) <$> values df |}.

(** The patch statements, in order. *)
Fixpoint apply_patches (ps : list patch) (df : DataFrame) : option DataFrame :=
  match ps with
  | [] => Some df
  | p :: ps => patch_value p df ≫= apply_patches ps
  end.

(** The patches with their column already located. *)
Definition located (cols : list string) (p : patch) : option (float * nat * float) :=
  j ← get_loc (property p) cols; Some (atomic_number p, j, value p).

Definition patch_row (a : nat) (rps : list (float * nat * float))
    (row : list float) : list float :=
  foldl (λ r '(z, j, v), set_cell a j z v r) row rps.

(** No patch writes the atomic-number column, every patch names a finite
    non-zero atomic number, and no later patch of the same column names the
    same atomic number. *)
Fixpoint consistent (a : nat) (rps : list (float * nat * float)) : bool :=
  match rps with
  | [] => true
  | (z, j, _) :: rest =>
      negb (j =? a) && F64.is_number z
      && forallb (λ '(z', j', _), negb (j' =? j) || negb (z =? z')%float) rest
      && consistent a rest
  end.

(** Where a missing value may stand before the patches: only in a cell that
    some patch addresses (its column, in a row of its atomic number). *)
Definition addressed (cols : list string) (ps : list patch)
    (row : list float) (j : nat) : bool :=
  existsb (λ p,
    match get_loc "atomic_number" cols, get_loc (property p) cols with
    | Some a, Some j' => (j' =? j) && has_atomic_number a (atomic_number p) row
    | _, _ => false
    end) ps.

Definition gaps_patched (ps : list patch) (df : DataFrame) : bool :=
  forallb (λ row,
    forallb (λ '(j, x), negb (is_nan x) || addressed (columns df) ps row j)
            (imap pair row))
    (values df).

(** No cell of the table is the missing-value marker. *)
Definition complete (df : DataFrame) : bool :=
  forallb (forallb (λ x, negb (is_nan x))) (values df).

(** The cell of row [i] in the column called [name]. *)
Definition cell (df : DataFrame) (i : nat) (name : string) : option float :=
  j ← get_loc name (columns df); row ← values df !! i; row !! j.

Lemma apply_patches_rows cols a ps rps rows :
  get_loc "atomic_number" cols = Some a →
  Forall2 (λ p rp, located cols p = Some rp) ps rps →
  apply_patches ps {| columns := cols; values := rows |}
  = Some {| columns := cols; values := patch_row a rps <$> rows |}.
Proof.
  intros Ha Hps. revert rows.
  induction Hps as [|p [[z j] v] ps rps Hp _ IH]; intros rows.
  - simpl. f_equal. f_equal. by rewrite list_fmap_id.
  - unfold located in Hp.
    destruct (get_loc (property p) cols) as [j'|] eqn:Hj; [|done].
    simpl in Hp. injection Hp as <- <- <-.
    cbn [apply_patches]. unfold patch_value. cbn [columns values].
    rewrite Ha, Hj. simpl. rewrite IH. f_equal. f_equal.
    by rewrite <- list_fmap_compose.
Qed.

Lemma length_set_cell a j z v row : length (set_cell a j z v row) = length row.
Proof. unfold set_cell. destruct has_atomic_number; by rewrite ?length_insert. Qed.

Lemma has_atomic_number_set_cell a j z v z' row :
  j ≠ a →
  has_atomic_number a z' (set_cell a j z v row) = has_atomic_number a z' row.
Proof.
  intros Hj. unfold set_cell. destruct (has_atomic_number a z row); [|done].
  unfold has_atomic_number. by rewrite list_lookup_insert_ne.
Qed.

Lemma consistent_cons a z j v rps :
  consistent a ((z, j, v) :: rps) = true →
  j ≠ a ∧ F64.is_number z = true
  ∧ (∀ z' j' v', (z', j', v') ∈ rps → j' = j → (z =? z')%float = false)
  ∧ consistent a rps = true.
Proof.
  cbn [consistent]. rewrite !andb_true_iff, negb_true_iff, Nat.eqb_neq.
  intros [[[Hj Hz] Hrest] Hc]. repeat split; try done.
  intros z' j' v' Hin ->. rewrite forallb_forall in Hrest.
  apply list_elem_of_In, Hrest in Hin. simpl in Hin.
  rewrite Nat.eqb_refl in Hin. simpl in Hin. by apply negb_true_iff.
Qed.

Lemma length_patch_row a rps row : length (patch_row a rps row) = length row.
Proof.
  unfold patch_row. revert row.
  induction rps as [|[[z j] v] rps IH]; intros row; [done|].
  simpl. by rewrite IH, length_set_cell.
Qed.

(** A cell that no matching patch addresses keeps what the lookup gave. *)
Lemma patch_row_untouched a rps row j :
  consistent a rps = true →
  (∀ z j' v, (z, j', v) ∈ rps → j' = j → has_atomic_number a z row = false) →
  patch_row a rps row !! j = row !! j.
Proof.
  unfold patch_row. revert row.
  induction rps as [|[[z0 j0] v0] rps IH]; intros row; [done|].
  intros (Hj & _ & _ & Hc)%consistent_cons Hun. simpl.
  rewrite IH; [|done|].
  - unfold set_cell. destruct (has_atomic_number a z0 row) eqn:Hz0; [|done].
    apply list_lookup_insert_ne. intros ->.
    rewrite (Hun z0 j v0) in Hz0; [done| |done]. apply elem_of_cons. by left.
  - intros z j' v Hin Hjj. rewrite has_atomic_number_set_cell by done.
    apply (Hun z j' v); [|done]. apply elem_of_cons. by right.
Qed.

Lemma has_atomic_number_eq a z row :
  F64.is_number z = true → has_atomic_number a z row = true → row !! a = Some z.
Proof.
  unfold has_atomic_number. destruct (row !! a) as [x|]; [|done].
  intros Hz Hx. f_equal. by apply F64.eqb_number_eq.
Qed.

(** A patch that matches a row decides its cell, whatever the lookup gave. *)
Lemma patch_row_patched a rps row z j v :
  consistent a rps = true → (z, j, v) ∈ rps →
  has_atomic_number a z row = true → j < length row →
  patch_row a rps row !! j = Some v.
Proof.
  unfold patch_row. revert row.
  induction rps as [|[[z0 j0] v0] rps IH]; intros row; [by intros _ ?%elem_of_nil|].
  intros Hcons Hin Hz Hlen.
  pose proof Hcons as (Hj & Hnum & Hlater & Hc)%consistent_cons.
  simpl. apply elem_of_cons in Hin as [Heq|Hin].
  - injection Heq as -> -> ->.
    fold (patch_row a rps (set_cell a j0 z0 v0 row)).
    rewrite patch_row_untouched; [|done|].
    + unfold set_cell. rewrite Hz. by apply list_lookup_insert_eq.
    + intros z' j' v' Hin' Hjj. rewrite has_atomic_number_set_cell by done.
      specialize (Hlater z' j' v' Hin' Hjj).
      apply has_atomic_number_eq in Hz; [|done].
      unfold has_atomic_number. by rewrite Hz.
  - apply IH; [done|done| |by rewrite length_set_cell].
    by rewrite has_atomic_number_set_cell.
Qed.

Definition locate_all (cols : list string) (ps : list patch) :
    option (list (float * nat * float)) :=
  mapM (located cols) ps.

Lemma locate_all_Forall2 cols ps rps :
  locate_all cols ps = Some rps →
  Forall2 (λ p rp, located cols p = Some rp) ps rps.
Proof. unfold locate_all. by rewrite mapM_Some. Qed.

Lemma get_loc_lt name cols j : get_loc name cols = Some j → j < length cols.
Proof.
  unfold get_loc. destruct (list_find _ cols) as [[j' c]|] eqn:Hf; [|done].
  intros [= <-]. apply list_find_Some in Hf as (Hj & _). simpl.
  by apply lookup_lt_Some in Hj.
Qed.

Lemma located_elem_of cols ps rps p :
  locate_all cols ps = Some rps → p ∈ ps →
  ∃ j, get_loc (property p) cols = Some j
       ∧ (atomic_number p, j, value p) ∈ rps.
Proof.
  intros HF%locate_all_Forall2 Hp.
  apply list_elem_of_lookup in Hp as [k Hk].
  destruct (Forall2_lookup_l _ _ _ _ _ HF Hk) as (rp & Hrp & Hloc).
  unfold located in Hloc.
  destruct (get_loc (property p) cols) as [j|] eqn:Hj; [|done].
  simpl in Hloc. injection Hloc as <-. exists j. split; [done|].
  apply list_elem_of_lookup. by exists k.
Qed.

Lemma elem_of_located cols ps rps z j v :
  locate_all cols ps = Some rps → (z, j, v) ∈ rps →
  ∃ p, p ∈ ps ∧ get_loc (property p) cols = Some j
       ∧ atomic_number p = z ∧ value p = v.
Proof.
  intros HF%locate_all_Forall2 Hrp.
  apply list_elem_of_lookup in Hrp as [k Hk].
  destruct (Forall2_lookup_r _ _ _ _ _ HF Hk) as (p & Hp & Hloc).
  unfold located in Hloc.
  destruct (get_loc (property p) cols) as [j'|] eqn:Hj; [|done].
  simpl in Hloc. injection Hloc as <- <- <-. exists p.
  split; [|done]. apply list_elem_of_lookup. by exists k.
Qed.

Section Patched.
Variables (cols : list string) (a : nat) (ps : list patch).
Variable rps : list (float * nat * float).
Hypothesis Hatomic : get_loc "atomic_number" cols = Some a.
Hypothesis Hlocated : locate_all cols ps = Some rps.
Hypothesis Hconsistent : consistent a rps = true.

Lemma apply_patches_total rows :
  apply_patches ps {| columns := cols; values := rows |}
  = Some {| columns := cols; values := patch_row a rps <$> rows |}.
Proof. apply apply_patches_rows; [done|]. by apply locate_all_Forall2. Qed.

(** After the block, the cell a patch addresses holds the patch's value. *)
Lemma patched_cell rows p i row :
  p ∈ ps → rows !! i = Some row → length row = length cols →
  has_atomic_number a (atomic_number p) row = true →
  cell {| columns := cols; values := patch_row a rps <$> rows |} i (property p)
  = Some (value p).
Proof.
  intros Hp Hi Hlen Hz.
  destruct (located_elem_of _ _ _ _ Hlocated Hp) as (j & Hj & Hin).
  unfold cell. cbn [columns values]. rewrite Hj. simpl.
  rewrite list_lookup_fmap, Hi. simpl.
  apply patch_row_patched with (z := atomic_number p); try done.
  rewrite Hlen. by eapply get_loc_lt.
Qed.

Lemma addressed_true row j :
  addressed cols ps row j = true →
  ∃ z v, (z, j, v) ∈ rps ∧ has_atomic_number a z row = true.
Proof.
  unfold addressed. rewrite existsb_exists. intros (p & Hp & Hm).
  rewrite Hatomic in Hm. apply list_elem_of_In in Hp.
  destruct (located_elem_of _ _ _ _ Hlocated Hp) as (j' & Hj & Hin).
  rewrite Hj in Hm. apply andb_true_iff in Hm as [->%Nat.eqb_eq Hz].
  by exists (atomic_number p), (value p).
Qed.

Lemma addressed_false row j z v :
  addressed cols ps row j = false → (z, j, v) ∈ rps →
  has_atomic_number a z row = false.
Proof.
  intros Hadd Hin.
  destruct (elem_of_located _ _ _ _ _ _ Hlocated Hin) as (p & Hp & Hj & <- & <-).
  destruct (has_atomic_number a (atomic_number p) row) eqn:Hz; [|done].
  assert (addressed cols ps row j = true) as Ht; [|congruence].
  unfold addressed. rewrite existsb_exists. exists p.
  split; [by apply list_elem_of_In|].
  by rewrite Hatomic, Hj, Nat.eqb_refl, Hz.
Qed.

(** If the lookups leave gaps only where a patch applies, and every patch
    value is a number, the patched table has no missing value. *)
Lemma patches_complete rows :
  forallb (λ p, negb (is_nan (value p))) ps = true →
  Forall (λ row : list float, length row = length cols) rows →
  gaps_patched ps {| columns := cols; values := rows |} = true →
  complete {| columns := cols; values := patch_row a rps <$> rows |} = true.
Proof.
  intros Hvals Hrows Hgaps. unfold complete, gaps_patched in *.
  cbn [columns values] in *.
  rewrite forallb_forall in Hgaps. rewrite forallb_forall in Hvals.
  apply forallb_forall. intros row' Hrow'.
  apply list_elem_of_In, list_elem_of_fmap in Hrow' as (row & -> & Hrow).
  apply forallb_forall. intros x Hx.
  apply list_elem_of_In, list_elem_of_lookup in Hx as [j Hx].
  pose proof (Hgaps row (proj1 (list_elem_of_In _ _) Hrow)) as Hg.
  rewrite forallb_forall in Hg.
  destruct (addressed cols ps row j) eqn:Hadd.
  - apply addressed_true in Hadd as (z & v & Hin & Hz).
    rewrite (patch_row_patched a rps row z j v) in Hx; try done.
    + injection Hx as <-.
      destruct (elem_of_located _ _ _ _ _ _ Hlocated Hin) as (p & Hp & _ & _ & <-).
      apply (Hvals p). by apply list_elem_of_In.
    + apply lookup_lt_Some in Hx. by rewrite length_patch_row in Hx.
  - rewrite patch_row_untouched in Hx; [|done|].
    + specialize (Hg (j, x)). simpl in Hg. rewrite Hadd, orb_false_r in Hg.
      apply Hg, list_elem_of_In, elem_of_lookup_imap. by exists j, x.
    + intros z j' v Hin ->. by eapply addressed_false.
Qed.

End Patched.

End Builder.

(** ** The neural-network regression notebook (Young's modulus) *)

Module YoungsModulus.
Import Builder.

Definition fcc_elements : list string :=
  ["Ag"; "Al"; "Au"; "Cu"; "Ir"; "Ni"; "Pb"; "Pd"; "Pt"; "Rh"; "Th"; "Yb"].
Definition bcc_elements : list string :=
  ["Ba"; "Cr"; "Cs"; "Eu"; "Fe"; "Li"; "Mn"; "Mo"; "Na"; "Nb"; "Rb"; "Ta";
   "V"; "W"].
Definition hcp_elements : list string :=
  ["Be"; "Ca"; "Cd"; "Co"; "Dy"; "Er"; "Gd"; "Hf"; "Ho"; "Lu"; "Mg"; "Re";
   "Ru"; "Sc"; "Tb"; "Ti"; "Tl"; "Tm"; "Y"; "Zn"; "Zr"].
Definition others : list string := ["Si"; "Ge"].

Definition elements : list string :=
  fcc_elements ++ others ++ bcc_elements ++ hcp_elements.

Definition querable_mendeleev : list string :=
  ["atomic_number"; "atomic_volume"; "boiling_point"; "en_ghosh";
   "evaporation_heat"; "heat_of_formation"; "lattice_constant";
   "specific_heat"].
Definition querable_pymatgen : list string :=
  ["atomic_mass"; "atomic_radius"; "electrical_resistivity"; "molar_volume";
   "bulk_modulus"; "youngs_modulus"; "average_ionic_radius";
   "density_of_solid"; "coefficient_of_linear_thermal_expansion"].
Definition querable_values : list string :=
  querable_mendeleev ++ querable_pymatgen.

(** The patch statements of the notebook, in order. *)
Definition manual_patches : list patch :=
  [ Patch 55 "coefficient_of_linear_thermal_expansion" 0.000097;
    Patch 37 "coefficient_of_linear_thermal_expansion" 0.000090;
    Patch 44 "evaporation_heat" 595;
    Patch 40 "bulk_modulus" 94;
    Patch 32 "bulk_modulus" 77.2;
    Patch 32 "youngs_modulus" 102.7 ].

(** The data frame as queried, and after the patches. *)
Definition queried (mendel pymat : database) (elements : list string) : DataFrame :=
  from_values (query mendel pymat querable_mendeleev querable_pymatgen elements)
              querable_values.

Definition build (mendel pymat : database) (elements : list string) :
    option DataFrame :=
  apply_patches manual_patches (queried mendel pymat elements).

Definition located_patches : list (float * nat * float) :=
  [(55%float, 16, 0.000097%float); (37%float, 16, 0.000090%float);
   (44%float, 4, 595%float); (40%float, 12, 94%float);
   (32%float, 12, 77.2%float); (32%float, 13, 102.7%float)].

(** The 49 rows and 17 columns of the table. *)
Lemma table_shape : length elements = 49 ∧ length querable_values = 17.
Proof. split; reflexivity. Qed.

Lemma atomic_number_loc : get_loc "atomic_number" querable_values = Some 0.
Proof. reflexivity. Qed.

Lemma manual_patches_located :
  locate_all querable_values manual_patches = Some located_patches.
Proof. reflexivity. Qed.

Lemma manual_patches_consistent : consistent 0 located_patches = true.
Proof. reflexivity. Qed.

Lemma build_total mendel pymat elements :
  build mendel pymat elements
  = Some {| columns := querable_values;
            values := patch_row 0 located_patches
                      <$> values (queried mendel pymat elements) |}.
Proof.
  unfold build. apply (apply_patches_total querable_values 0 manual_patches);
    [apply atomic_number_loc | apply manual_patches_located].
Qed.

Lemma queried_row mendel pymat elements i item :
  elements !! i = Some item →
  values (queried mendel pymat elements) !! i
  = Some (default nan
          <$> element_values mendel pymat querable_mendeleev querable_pymatgen item).
Proof.
  intros Hi. unfold queried, from_values, query. cbn [values].
  by rewrite !list_lookup_fmap, Hi.
Qed.

Lemma queried_rows_length mendel pymat elements :
  Forall (λ row : list float, length row = length querable_values)
         (values (queried mendel pymat elements)).
Proof.
  unfold queried, from_values, query. cbn [values].
  rewrite <- list_fmap_compose. apply Forall_fmap, Forall_true. intros item.
  unfold compose. by rewrite length_fmap, length_element_values.
Qed.

Definition EPOCHS : nat := 2000.

End YoungsModulus.

(** ** The classification notebook (crystal structure) *)

Module Classification.
Import Builder.

Definition fcc_elements : list string :=
  ["Ag"; "Al"; "Au"; "Cu"; "Ir"; "Ni"; "Pb"; "Pd"; "Pt"; "Rh"; "Th"; "Yb"].
Definition bcc_elements : list string :=
  ["Ba"; "Ca"; "Cr"; "Cs"; "Eu"; "Fe"; "Li"; "Mn"; "Mo"; "Na"; "Nb"; "Rb";
   "Ta"; "V"; "W"].
Definition hcp_elements : list string :=
  ["Be"; "Cd"; "Co"; "Dy"; "Er"; "Gd"; "Hf"; "Ho"; "Lu"; "Mg"; "Re";
   "Ru"; "Sc"; "Tb"; "Ti"; "Tl"; "Tm"; "Y"; "Zn"; "Zr"].

(** [elements] before [random.Random(1).shuffle(elements)]; the shuffled
    list is some permutation of it. *)
Definition declared_elements : list string :=
  fcc_elements ++ bcc_elements ++ hcp_elements.

Definition querable_mendeleev : list string :=
  ["atomic_number"; "atomic_volume"; "boiling_point"; "en_ghosh";
   "evaporation_heat"; "heat_of_formation"; "lattice_constant";
   "melting_point"; "specific_heat"].
Definition querable_pymatgen : list string :=
  ["atomic_mass"; "atomic_radius"; "electrical_resistivity"; "molar_volume";
   "bulk_modulus"; "youngs_modulus"; "average_ionic_radius";
   "density_of_solid"; "coefficient_of_linear_thermal_expansion"].
Definition querable_values : list string :=
  querable_mendeleev ++ querable_pymatgen.

Definition manual_patches : list patch :=
  [ Patch 55 "coefficient_of_linear_thermal_expansion" 0.000097;
    Patch 37 "coefficient_of_linear_thermal_expansion" 0.000090;
    Patch 44 "evaporation_heat" 595;
    Patch 40 "bulk_modulus" 94 ].

Section Loop.
Variables mendel pymat : database.

(** One iteration of [for item in elements]: the feature row is appended,
    then the label row chosen by the [if]/[elif] chain. *)
Definition iteration
    (st : list (list (option float)) * list (list Z)) (item : string) :
    list (list (option float)) * list (list Z) :=
  let '(all_values, all_labels) := st in
  let all_values :=
    all_values
    ++ [element_values mendel pymat querable_mendeleev querable_pymatgen item] in
  if bool_decide (item ∈ fcc_elements) then
    (all_values, all_labels ++ [[1; 0; 0]%Z])
  else if bool_decide (item ∈ bcc_elements) then
    (all_values, all_labels ++ [[0; 1; 0]%Z])
  else if bool_decide (item ∈ hcp_elements) then
    (all_values, all_labels ++ [[0; 0; 1]%Z])
  else (all_values, all_labels).

Definition query_loop (elements : list string) :
    list (list (option float)) * list (list Z) :=
  foldl iteration ([], []) elements.

Definition queried (elements : list string) : DataFrame :=
  from_values (query_loop elements).1 querable_values.

Definition build (elements : list string) : option DataFrame :=
  apply_patches manual_patches (queried elements).

End Loop.

(** The label row the chain gives an element, if any. *)
Definition label_of (item : string) : option (list Z) :=
  if bool_decide (item ∈ fcc_elements) then Some [1; 0; 0]%Z
  else if bool_decide (item ∈ bcc_elements) then Some [0; 1; 0]%Z
  else if bool_decide (item ∈ hcp_elements) then Some [0; 0; 1]%Z
  else None.

Definition located_patches : list (float * nat * float) :=
  [(55%float, 17, 0.000097%float); (37%float, 17, 0.000090%float);
   (44%float, 4, 595%float); (40%float, 13, 94%float)].

(** The 47 rows and 18 columns of the table. *)
Lemma clf_table_shape :
  length declared_elements = 47 ∧ length querable_values = 18.
Proof. split; reflexivity. Qed.

Lemma clf_atomic_number_loc : get_loc "atomic_number" querable_values = Some 0.
Proof. reflexivity. Qed.

Lemma clf_manual_patches_located :
  locate_all querable_values manual_patches = Some located_patches.
Proof. reflexivity. Qed.

Lemma clf_manual_patches_consistent : consistent 0 located_patches = true.
Proof. reflexivity. Qed.

Lemma iteration_spec mendel pymat st item :
  iteration mendel pymat st item
  = (st.1 ++ [element_values mendel pymat querable_mendeleev querable_pymatgen item],
     st.2 ++ option_list (label_of item)).
Proof.
  destruct st as [vs ls]. unfold iteration, label_of. cbn [fst snd].
  repeat case_bool_decide; simpl; by rewrite ?app_nil_r.
Qed.

Lemma foldl_iteration mendel pymat elements st :
  foldl (iteration mendel pymat) st elements
  = (st.1 ++ query mendel pymat querable_mendeleev querable_pymatgen elements,
     st.2 ++ omap label_of elements).
Proof.
  revert st. induction elements as [|item elements IH]; intros st.
  - simpl. rewrite !app_nil_r. by destruct st.
  - cbn [foldl]. rewrite IH, iteration_spec. cbn [fst snd].
    unfold query. rewrite fmap_cons, <- !app_assoc. f_equal. f_equal.
    cbn [omap list_omap]. by destruct (label_of item).
Qed.

Lemma query_loop_spec mendel pymat elements :
  query_loop mendel pymat elements
  = (query mendel pymat querable_mendeleev querable_pymatgen elements,
     omap label_of elements).
Proof. unfold query_loop. by rewrite foldl_iteration. Qed.

Lemma declared_NoDup : NoDup declared_elements.
Proof. apply (bool_decide_unpack (NoDup declared_elements)). by vm_compute. Qed.

(** The three lists are pairwise disjoint. *)
Lemma declared_disjoint :
  fcc_elements ## bcc_elements ∧ fcc_elements ## hcp_elements
  ∧ bcc_elements ## hcp_elements.
Proof.
  pose proof declared_NoDup as Hnd. unfold declared_elements in Hnd.
  apply NoDup_app in Hnd as (_ & H1 & Hnd).
  apply NoDup_app in Hnd as (_ & H2 & _).
  split_and!; intros x Hx Hy.
  - apply (H1 x Hx). apply elem_of_app. by left.
  - apply (H1 x Hx). apply elem_of_app. by right.
  - by apply (H2 x Hx).
Qed.

(** An element of the three lists gets the row of its own list. *)
Lemma label_of_declared item :
  item ∈ declared_elements →
  ∃ lab, label_of item = Some lab
    ∧ (lab = [1; 0; 0]%Z ↔ item ∈ fcc_elements)
    ∧ (lab = [0; 1; 0]%Z ↔ item ∈ bcc_elements)
    ∧ (lab = [0; 0; 1]%Z ↔ item ∈ hcp_elements).
Proof.
  intros Hin. unfold label_of.
  destruct declared_disjoint as (H12 & H13 & H23).
  unfold declared_elements in Hin. rewrite !elem_of_app in Hin.
  repeat case_bool_decide; [| | |exfalso; tauto];
    (eexists; split; [done|]);
    split_and!; split; try done; intros Hx; exfalso;
    first [by eapply H12 | by eapply H13 | by eapply H23].
Qed.

Lemma omap_label_of elements :
  Forall (λ item, item ∈ declared_elements) elements →
  Forall2 (λ item lab, label_of item = Some lab) elements (omap label_of elements).
Proof.
  induction 1 as [|item elements Hitem _ IH]; [constructor|].
  destruct (label_of_declared item Hitem) as (lab & Hlab & _).
  cbn [omap list_omap]. rewrite Hlab. by constructor.
Qed.

Lemma clf_build_total mendel pymat elements :
  build mendel pymat elements
  = Some {| columns := querable_values;
            values := patch_row 0 located_patches
                      <$> values (queried mendel pymat elements) |}.
Proof.
  unfold build. apply (apply_patches_total querable_values 0 manual_patches);
    [apply clf_atomic_number_loc | apply clf_manual_patches_located].
Qed.

Lemma clf_queried_row mendel pymat elements i item :
  elements !! i = Some item →
  values (queried mendel pymat elements) !! i
  = Some (default nan
          <$> element_values mendel pymat querable_mendeleev querable_pymatgen item).
Proof.
  intros Hi. unfold queried, from_values. rewrite query_loop_spec.
  unfold query. cbn [values fst]. by rewrite !list_lookup_fmap, Hi.
Qed.

Lemma clf_queried_rows_length mendel pymat elements :
  Forall (λ row : list float, length row = length querable_values)
         (values (queried mendel pymat elements)).
Proof.
  unfold queried, from_values. rewrite query_loop_spec.
  unfold query. cbn [values fst].
  rewrite <- list_fmap_compose. apply Forall_fmap, Forall_true. intros item.
  unfold compose. by rewrite length_fmap, length_element_values.
Qed.

Definition EPOCHS : nat := 300.

End Classification.

(** ** Evaluator

    What [model.evaluate] reports is fixed by [model.compile]'s [metrics];
    the linear regression has a report of its own in [regression]. *)

Module Evaluator.
Import Np.

(** [np.argmax]: the index of the first maximum. *)
Fixpoint argmax_from {B} (lt : B → B → bool) (best : nat) (top : B) (i : nat)
    (l : list B) : nat :=
  match l with
  | [] => best
  | x :: l =>
      if lt top x then argmax_from lt i x (S i) l
      else argmax_from lt best top (S i) l
  end.

Definition argmax {B} (lt : B → B → bool) (l : list B) : nat :=
  match l with
  | [] => 0
  | x :: l => argmax_from lt 0 x 1 l
  end.

Section Metrics.
Context {A : Type} `{Dtype A}.

(** Modelled from the spec: the aggregate error of the regression variant
    (section 4.4), which the model library computes for the metric named
    ['mae']: the mean of [|y_true - y_pred|]. *)
Definition mean_absolute_error (y_true y_pred : list A) : A :=
  mean (zip_with (λ t p, abs (sub t p)) y_true y_pred).

(** [sklearn.metrics.mean_squared_error], as the library documents it: the
    mean of [(y_true - y_pred)²]. *)
Definition mean_squared_error (y_true y_pred : list A) : A :=
  mean (zip_with (λ t p, mul (sub t p) (sub t p)) y_true y_pred).

(** Modelled from the spec: the aggregate error of the classification
    variant (section 4.4), which the model library computes for the metric
    named ['accuracy'] on one-hot labels: the mean over the rows of 1 where
    the [argmax] of the scores is the [argmax] of the label row, else 0. *)
Definition hit (label : list Z) (scores : list A) : bool :=
  argmax Z.ltb label =? argmax ltb scores.

Definition accuracy (y_true : list (list Z)) (y_pred : list (list A)) : A :=
  mean (zip_with (λ t p, if hit t p then of_nat 1 else of_nat 0) y_true y_pred).

(** Modelled from the spec: the metric a name stands for in
    [metrics=[...]] of [compile], one per kind of labels. *)
Inductive metric_fn :=
  | Scalar (f : list A → list A → A)
  | Categorical (f : list (list Z) → list (list A) → A).

Definition metric_of (name : string) : option metric_fn :=
  if String.eqb name "mae" then Some (Scalar mean_absolute_error)
  else if String.eqb name "accuracy" then Some (Categorical accuracy)
  else None.

(** *** Neural-network regression

    [[
    model.compile(loss='mae', optimizer=optimizer, metrics=['mae'])
    [loss, mae] = model.evaluate(test_values, test_labels, verbose=0)
    ]]
    [predict_row] is the fitted network on one row. *)
Definition evaluate_regression (loss metric : string)
    (predict_row : list A → A) (values : list (list A)) (labels : list A) :
    option (A * A) :=
  match metric_of loss, metric_of metric with
  | Some (Scalar l), Some (Scalar m) =>
      let y_pred := predict_row <$> values in
      Some (l labels y_pred, m labels y_pred)
  | _, _ => None
  end.

(** *** Classification

    [[
    model.compile(loss='categorical_crossentropy', optimizer=optimizer,
                  metrics=['accuracy'])
    loss, acc = model.evaluate(test_values, test_labels, verbose=0)
    ]]
    The loss function is the library's and stays a parameter. *)
Definition evaluate_classification
    (categorical_crossentropy : list (list Z) → list (list A) → A)
    (metric : string) (predict_row : list A → list A)
    (values : list (list A)) (labels : list (list Z)) : option (A * A) :=
  match metric_of metric with
  | Some (Categorical m) =>
      let y_pred := predict_row <$> values in
      Some (categorical_crossentropy labels y_pred, m labels y_pred)
  | _ => None
  end.

(** The two notebooks' calls, with the names their [compile] passes. *)
Definition evaluate_youngs_modulus := evaluate_regression "mae" "mae".

Definition evaluate_crystal_structure
    (categorical_crossentropy : list (list Z) → list (list A) → A) :=
  evaluate_classification categorical_crossentropy "accuracy".

(** *** Linear regression: [regression(x_train, x_test, y_train, y_test)]

    The model is scikit-learn's; [fit], [predict] and [r2_score] are
    parameters.  The function prints its report and returns the predictions
    over the joined data. *)
Record report := Report {
  printed_mean_squared_error : A;
  printed_variance_score : A;
  returned : list A
}.

Definition regression {model : Type}
    (fit : list A → list A → model) (predict : model → list A → list A)
    (r2_score : list A → list A → A)
    (x_train x_test y_train y_test : list A) : report :=
  let model := fit x_train y_train in
  let full_x := x_train ++ x_test in
  let full_y := y_train ++ y_test in
  let predictions := predict model full_x in
  Report (mean_squared_error full_y predictions)
         (r2_score full_y predictions)
         predictions.

(** Ordinary least squares with one feature, in closed form: the model
    [LinearRegression().fit] returns, used to run [regression] on examples. *)
Definition ols_fit (x y : list A) : A * A :=
  let xm := mean x in
  let ym := mean y in
  let sxy := sum (zip_with (λ a b, mul (sub a xm) (sub b ym)) x y) in
  let sxx := sum ((λ a, mul (sub a xm) (sub a xm)) <$> x) in
  let coef := div sxy sxx in
  (coef, sub ym (mul coef xm)).

Definition ols_predict (m : A * A) (x : list A) : list A :=
  (λ a, add (mul m.1 a) m.2) <$> x.

(** [r2_score]: one minus the residual sum of squares over the total sum
    of squares. *)
Definition r2_score (y_true y_pred : list A) : A :=
  let ym := mean y_true in
  sub (of_nat 1)
      (div (sum (zip_with (λ t p, mul (sub t p) (sub t p)) y_true y_pred))
           (sum ((λ t, mul (sub t ym) (sub t ym)) <$> y_true))).

End Metrics.

(** The number of rows whose predicted class is the true class. *)
Definition hits {A} `{Dtype A} (y_true : list (list Z)) (y_pred : list (list A)) : nat :=
  sum_list (zip_with (λ t p, if hit t p then 1 else 0) y_true y_pred).

(** In exact arithmetic the accuracy is the fraction of rows whose
    predicted class is the true class. *)
Lemma sum_indicator (y_true : list (list Z)) (y_pred : list (list R)) :
  Np.sum (zip_with (λ t p, if hit t p then INR 1 else INR 0) y_true y_pred)
  = INR (hits y_true y_pred).
Proof.
  unfold hits. revert y_pred.
  induction y_true as [|t y_true IH]; intros [|p y_pred];
    cbn [zip_with sum_list]; try (rewrite Exact.sum_nil; reflexivity).
  rewrite Exact.sum_cons, IH, plus_INR. by destruct (hit t p).
Qed.

(** In exact arithmetic the mean absolute error is never negative, and it
    is zero for predictions that equal the labels. *)
Lemma sum_nonneg (l : list R) : Forall (λ x, 0 <= x)%R l → (0 <= Np.sum l)%R.
Proof.
  induction 1 as [|x l Hx _ IH]; [rewrite Exact.sum_nil; lra|].
  rewrite Exact.sum_cons. lra.
Qed.

Lemma mean_absolute_error_nonneg (y_true y_pred : list R) :
  (0 <= mean_absolute_error y_true y_pred)%R.
Proof.
  unfold mean_absolute_error, mean. cbn [div of_nat exact].
  set (errors := zip_with _ y_true y_pred).
  assert (0 <= Np.sum errors)%R as Hsum.
  { apply sum_nonneg, Forall_forall. subst errors.
    intros e (t & p & -> & _)%elem_of_zip_with. apply Rabs_pos. }
  destruct (Req_dec (INR (length errors)) 0) as [->|Hn].
  - unfold Rdiv. rewrite Rinv_0. lra.
  - apply Rmult_le_pos; [done|].
    apply Rlt_le, Rinv_0_lt_compat. pose proof (pos_INR (length errors)). lra.
Qed.

Lemma mean_absolute_error_exact_fit (y : list R) :
  mean_absolute_error y y = 0%R.
Proof.
  unfold mean_absolute_error, mean. cbn [div of_nat exact abs sub].
  assert (Np.sum (zip_with (λ t p : R, Rabs (t - p)) y y) = 0%R) as ->.
  { induction y as [|t y IH]; [apply Exact.sum_nil|].
    cbn [zip_with]. rewrite Exact.sum_cons, IH.
    replace (t - t)%R with 0%R by lra. rewrite Rabs_R0. lra. }
  unfold Rdiv. lra.
Qed.

Lemma accuracy_fraction (y_true : list (list Z)) (y_pred : list (list R)) :
  length y_true = length y_pred →
  accuracy y_true y_pred
  = (INR (hits y_true y_pred) / INR (length y_true))%R.
Proof.
  intros Hlen. unfold accuracy, mean. cbn [div of_nat exact].
  rewrite sum_indicator. rewrite length_zip_with, <- Hlen.
  by rewrite Nat.min_id.
Qed.

End Evaluator.

(** ** Result Visualizer

    The Plotly traces of the two regression notebooks. *)

Module Visualizer.
Import Np.

Record Scatter (A : Type) := {
  x : list A;
  y : list A;
  mode : string;
  color : string;
  text : list string;
  name : string
}.
Arguments x {A}.
Arguments y {A}.
Arguments mode {A}.
Arguments color {A}.
Arguments text {A}.
Arguments name {A}.

(** The points a trace draws. *)
Definition points {A} (tr : Scatter A) : list (A * A) := zip (x tr) (y tr).

(** [[l[i] for i in index]] *)
Definition pick {B} (l : list B) (index : list nat) : list B :=
  omap (λ i, l !! i) index.

Section Traces.
Context {A : Type} `{Dtype A}.

(** *** Neural-network regression

    [predict_row] is the fitted network on one row.
    [[
    test_predictions = model.predict(test_values).flatten()
    values = np.concatenate((train_values, test_values), axis=0)
    predictions = model.predict(values).flatten()
    trace0 = go.Scatter(x = all_labels, y = predictions, ..., text = elements,
                        name = 'Young\'s Modulus (Training)')
    trace1 = go.Scatter(x = test_labels, y = test_predictions, ...,
                        text = labeled_elements,
                        name = 'Young\'s Modulus (Testing)')
    ]] *)
Definition traces (predict_row : list A → A)
    (all_labels test_labels : list A) (train_values test_values : list (list A))
    (elements labeled_elements : list string) : list (Scatter A) :=
  let test_predictions := predict_row <$> test_values in
  let values := train_values ++ test_values in
  let predictions := predict_row <$> values in
  let trace0 :=
    {| x := all_labels; y := predictions; mode := "markers"; color := "blue";
       text := elements; name := "Young's Modulus (Training)" |} in
  let trace1 :=
    {| x := test_labels; y := test_predictions; mode := "markers";
       color := "red"; text := labeled_elements;
       name := "Young's Modulus (Testing)" |} in
  let trace2 :=
    {| x := [of_nat 0; of_nat 600]; y := [of_nat 0; of_nat 600];
       mode := "lines"; color := ""; text := []; name := "Match" |} in
  [trace0; trace1; trace2].

(** The notebook from the arrays to the figure: partition, normalisation,
    prediction, traces.  [order] is [np.arange(49)], one index per row of
    the table. *)
Definition figure (predict_row : list A → A) (ncols training_count testing_count : nat)
    (all_values : list (list A)) (all_labels : list A) (elements : list string) :
    list (Scatter A) :=
  let order := Py.range (length all_labels) in
  let all_values := pick all_values order in
  let all_labels := pick all_labels order in
  let train_labels := Partition.train_rows training_count all_labels in
  let test_labels := Partition.test_rows testing_count all_labels in
  let labeled_elements := pick elements (Partition.test_rows testing_count order) in
  let elements := pick elements order in
  let s := Normalizer.normalize ncols training_count testing_count all_values in
  traces predict_row all_labels test_labels
         (Normalizer.train_values s) (Normalizer.test_values s)
         elements labeled_elements.

(** *** Linear regression

    [np.array(l).reshape(-1,1)] and [a.reshape(1,-1).tolist()[0]]. *)
Definition reshape_column (l : list A) : list (list A) := (λ v, [v]) <$> l.
Definition tolist_row (a : list (list A)) : list A := concat a.

(** [plot(x_train, x_test, y_train, y_test, x_label, y_label, predictions)] *)
Definition plot (x_train x_test y_train y_test : list (list A))
    (predictions : list (list A)) : list (Scatter A) :=
  let x_train := tolist_row x_train in
  let x_test := tolist_row x_test in
  let y_train := tolist_row y_train in
  let y_test := tolist_row y_test in
  let predictions := tolist_row predictions in
  let full_x_list := x_train ++ x_test in
  let training :=
    {| x := x_train; y := y_train; mode := "markers"; color := "green";
       text := []; name := "Training Data" |} in
  let actual :=
    {| x := x_test; y := y_test; mode := "markers"; color := "red";
       text := []; name := "Testing Data" |} in
  let prediction :=
    {| x := full_x_list; y := predictions; mode := "lines"; color := "blue";
       text := []; name := "Model" |} in
  [training; actual; prediction].

(** The notebook's cells around it: slices of the queried lists, reshaped. *)
Definition linreg_figure (training_count testing_count : nat)
    (data_x data_y : list A) (predictions : list (list A)) : list (Scatter A) :=
  let x_train := reshape_column (Partition.train_rows training_count data_x) in
  let x_test := reshape_column (Partition.test_rows testing_count data_x) in
  let y_train := reshape_column (Partition.train_rows training_count data_y) in
  let y_test := reshape_column (Partition.test_rows testing_count data_y) in
  plot x_train x_test y_train y_test predictions.

Lemma tolist_reshape (l : list A) : tolist_row (reshape_column l) = l.
Proof.
  unfold tolist_row, reshape_column.
  induction l as [|v l IH]; [done|]. rewrite fmap_cons. simpl. by rewrite IH.
Qed.

End Traces.

Lemma pick_range {B} (l : list B) : pick l (Py.range (length l)) = l.
Proof.
  unfold pick, Py.range.
  induction l as [|b l IH] using rev_ind; [done|].
  rewrite length_app. simpl. rewrite Nat.add_1_r, seq_S, omap_app. simpl.
  rewrite lookup_app_r, Nat.sub_diag by done. simpl.
  f_equal. rewrite <- IH at 2. apply list_omap_ext, Forall_Forall2_diag.
  apply Forall_forall. intros i Hi%elem_of_seq.
  rewrite lookup_app_l by lia. done.
Qed.

Lemma figure_rows {A} (l : list A) tc k :
  0 < k → tc + k = length l →
  Partition.train_rows tc l ++ Partition.test_rows k l = l.
Proof.
  intros Hk Hn. rewrite Partition.train_rows_take, Partition.test_rows_drop by done.
  replace (length l - k) with tc by lia. apply take_drop.
Qed.

End Visualizer.

(** ** Model Trainer

    [[
    history = model.fit(train_values, train_labels,
                        batch_size=train_values.shape[0], epochs=EPOCHS,
                        validation_split=0.1, callbacks=[PrintEpNum()], ...)
    ]] *)

Module Trainer.

Section Fit.
Context {model sample A : Type}.

(** The optimiser's step on one batch (the new network and the batch loss)
    and the loss of a network on held-out rows: the library's, parameters
    here. *)
Variable train_on_batch : model → list sample → model * A.
Variable evaluate : model → list sample → A.

(** The reordering of the training rows before a pass ([shuffle=True], the
    library's default): some permutation, one per epoch. *)
Variable reorder : nat → list sample → list sample.
Hypothesis reorder_perm : ∀ epoch rows, reorder epoch rows ≡ₚ rows.

(** What one pass leaves in [history]: the batch losses and the validation
    loss. *)
Record logs := Logs {
  loss : list A;
  val_loss : A
}.

Record fit_state := FitState {
  network : model;
  stop_training : bool;
  history : list logs;
  batches_seen : list (list sample);
  stdout : list string
}.

(** A callback's [on_epoch_end(self, epoch, logs)]. *)
Definition callback := nat → logs → fit_state → fit_state.

(** The notebook's callback: it writes the epoch counter and touches
    nothing else.
    [[
    class PrintEpNum(keras.callbacks.Callback):
        def on_epoch_end(self, epoch, logs):
            sys.stdout.flush()
            sys.stdout.write("Current Epoch: " + str(epoch+1) + ...)
    ]]
    [tail] is what follows the counter: the formatted training loss in the
    regression notebook, a carriage return in the classifier's. *)
Definition PrintEpNum (tail : logs → string) : callback :=
  λ epoch logs st,
    FitState (network st) (stop_training st) (history st) (batches_seen st)
             (stdout st ++ ["Current Epoch: " +:+ pretty (epoch + 1) +:+ tail logs]).

(** Modelled from the spec: the fit loop of the model library (collaborator
    B, section 4.3), which is not under src/.  [split_at] is where the
    held-out rows start: the last [validation_split] of the rows are held
    out before training. *)
Definition split_at (rows percent_held_out : nat) : nat :=
  rows * (100 - percent_held_out) / 100.

(** Modelled from the spec: the fit loop cuts the rows of a pass into
    batches of [batch_size]. *)
Fixpoint make_batches (fuel batch_size : nat) (rows : list sample) :
    list (list sample) :=
  match fuel, rows with
  | 0, _ | _, [] => []
  | S fuel, _ =>
      take batch_size rows :: make_batches fuel batch_size (drop batch_size rows)
  end.

(** Modelled from the spec: the fit loop steps the optimiser once per
    batch. *)
Definition train_batches (net : model) (batches : list (list sample)) :
    model * list A :=
  foldl (λ '(net, losses) batch,
           let '(net', l) := train_on_batch net batch in (net', losses ++ [l]))
        (net, []) batches.

(** Modelled from the spec: one pass of the fit loop.  The rows are
    reordered when [shuffle] is set, cut into batches and trained on; the
    held-out rows are evaluated, the logs recorded and the callbacks run. *)
Definition run_epoch (callbacks : list callback) (batch_size : nat)
    (shuffle : bool) (training validation : list sample) (epoch : nat)
    (st : fit_state) : fit_state :=
  let rows := if shuffle then reorder epoch training else training in
  let batches := make_batches (length rows) batch_size rows in
  let '(net, losses) := train_batches (network st) batches in
  let lg := Logs losses (evaluate net validation) in
  let st := FitState net (stop_training st) (history st ++ [lg])
                     (batches_seen st ++ batches) (stdout st) in
  foldl (λ st cb, cb epoch lg st) st callbacks.

(** Modelled from the spec: the fit loop ends after [epochs] passes, or
    earlier once a callback has set [stop_training]. *)
Fixpoint fit_loop (callbacks : list callback) (batch_size : nat)
    (shuffle : bool) (training validation : list sample)
    (epochs epoch : nat) (st : fit_state) : fit_state :=
  match epochs with
  | 0 => st
  | S epochs =>
      let st := run_epoch callbacks batch_size shuffle training validation epoch st in
      if stop_training st then st
      else fit_loop callbacks batch_size shuffle training validation epochs
                    (S epoch) st
  end.

(** Modelled from the spec: [model.fit] of collaborator B. *)
Definition fit (net : model) (data : list sample)
    (batch_size epochs : nat) (shuffle : bool) (percent_held_out : nat)
    (callbacks : list callback) : fit_state :=
  let n := split_at (length data) percent_held_out in
  fit_loop callbacks batch_size shuffle (take n data) (drop n data) epochs 0
           (FitState net false [] [] []).



(** The notebooks' call: the whole training partition as [batch_size], ten
    percent held out, [PrintEpNum] the only callback; [shuffle=False] in the
    regression notebook, the default in the classifier's. *)
Definition train (tail : logs → string) (EPOCHS : nat) (shuffle : bool)
    (net : model) (train_data : list sample) : fit_state :=
  fit net train_data (length train_data) EPOCHS shuffle 10 [PrintEpNum tail].













End Fit.
End Trainer.

(** ** The missing-value marker

    NaN in binary64 arithmetic: every operation the normaliser uses returns
    NaN as soon as one operand is NaN. *)

Module NaN.

Lemma nan_SF : Prim2SF nan = S754_nan.
Proof. reflexivity. Qed.

Lemma add_nan_l (x : float) : (nan + x)%float = nan.
Proof. apply Prim2SF_inj. by rewrite add_spec, nan_SF. Qed.

Lemma add_nan_r (x : float) : (x + nan)%float = nan.
Proof.
  apply Prim2SF_inj. rewrite add_spec, nan_SF.
  by destruct (Prim2SF x).
Qed.

Lemma sub_nan_l (x : float) : (nan - x)%float = nan.
Proof. apply Prim2SF_inj. by rewrite sub_spec, nan_SF. Qed.

Lemma sub_nan_r (x : float) : (x - nan)%float = nan.
Proof.
  apply Prim2SF_inj. rewrite sub_spec, nan_SF.
  by destruct (Prim2SF x).
Qed.

Lemma div_nan_l (x : float) : (nan / x)%float = nan.
Proof. apply Prim2SF_inj. by rewrite div_spec, nan_SF. Qed.

End NaN.

(** ** Rows and their indices

    Which rows a slice holds, and how slices, comprehensions over [order]
    and maps over the rows commute. *)

Module Rows.

Lemma test_rows_drop_min {A} k (l : list A) :
  Partition.test_rows k l
  = drop (match k with 0 => 0 | _ => length l - k end) l.
Proof.
  destruct k as [|k]; [by rewrite Partition.test_rows_zero|].
  apply Partition.test_rows_drop. lia.
Qed.

Lemma elem_of_train_index_iff tc n i :
  i ∈ Partition.train_index tc n ↔ i < tc ∧ i < n.
Proof.
  unfold Partition.train_index. rewrite Partition.train_rows_take.
  unfold Py.range. rewrite list_elem_of_lookup. split.
  - intros [p Hp]. apply lookup_take_Some in Hp as [Hp ?].
    apply lookup_seq in Hp. lia.
  - intros [? ?]. exists i. rewrite lookup_take_lt by done.
    by apply lookup_seq_lt.
Qed.

Lemma elem_of_test_index_iff k n i :
  0 < k → i ∈ Partition.test_index k n ↔ n - k ≤ i ∧ i < n.
Proof.
  intros Hk. unfold Partition.test_index.
  rewrite Partition.test_rows_drop by done. unfold Py.range.
  rewrite length_seq, list_elem_of_lookup. split.
  - intros [p Hp]. rewrite lookup_drop in Hp. apply lookup_seq in Hp. lia.
  - intros [? ?]. exists (i - (n - k)). rewrite lookup_drop.
    rewrite lookup_seq_lt by lia. f_equal. lia.
Qed.

(** Where a testing slice starts in a sequence of [n] rows. *)
Definition test_start (testing_count n : nat) : nat :=
  Py.bound n (- Z.of_nat testing_count).

Lemma test_start_le k n : test_start k n ≤ n.
Proof. unfold test_start, Py.bound. destruct (Z.ltb_spec (- Z.of_nat k) 0); lia. Qed.

Lemma lookup_test_rows {A} k (l : list A) i :
  Partition.test_rows k l !! i = l !! (test_start k (length l) + i).
Proof. unfold Partition.test_rows, Py.slice_from. by rewrite lookup_drop. Qed.

Lemma train_rows_fmap {A B} (f : A → B) tc (l : list A) :
  Partition.train_rows tc (f <$> l) = f <$> Partition.train_rows tc l.
Proof. by rewrite !Partition.train_rows_take, fmap_take. Qed.

Lemma test_rows_fmap {A B} (f : A → B) k (l : list A) :
  Partition.test_rows k (f <$> l) = f <$> Partition.test_rows k l.
Proof.
  unfold Partition.test_rows, Py.slice_from. by rewrite length_fmap, fmap_drop.
Qed.

Lemma pick_seq {B} (l : list B) a m :
  a + m ≤ length l → Visualizer.pick l (seq a m) = take m (skipn a l).
Proof.
  unfold Visualizer.pick. revert a. induction m as [|m IH]; intros a Ha.
  - by rewrite take_0.
  - cbn [seq omap list_omap].
    destruct (lookup_lt_is_Some_2 l a) as [x Hx]; [lia|].
    rewrite Hx, (drop_S l x a Hx). cbn [take]. f_equal. apply IH. lia.
Qed.

(** [[l[x] for x in order[-k:]]] over [order = np.arange(len(l))] is
    [l[-k:]]. *)
Lemma pick_test_rows {B} (l : list B) k :
  Visualizer.pick l (Partition.test_rows k (Py.range (length l)))
  = Partition.test_rows k l.
Proof.
  unfold Partition.test_rows, Py.slice_from, Py.range.
  rewrite length_seq. fold (test_start k (length l)).
  pose proof (test_start_le k (length l)).
  rewrite drop_seq, pick_seq by lia. cbn [Nat.add].
  apply take_ge. rewrite length_drop. lia.
Qed.

Lemma pick_range_of {B} (l : list B) n :
  length l = n → Visualizer.pick l (Py.range n) = l.
Proof. intros <-. apply Visualizer.pick_range. Qed.

Lemma pick_test_rows_of {B} (l : list B) k n :
  length l = n →
  Visualizer.pick l (Partition.test_rows k (Py.range n)) = Partition.test_rows k l.
Proof. intros <-. apply pick_test_rows. Qed.

Lemma elem_of_test_rows {B} k (l : list B) e :
  0 < k → e ∈ Partition.test_rows k l ↔ ∃ i, l !! i = Some e ∧ length l - k ≤ i.
Proof.
  intros Hk. rewrite Partition.test_rows_drop by done.
  rewrite list_elem_of_lookup. split.
  - intros [j Hj]. rewrite lookup_drop in Hj. exists (length l - k + j).
    split; [done|lia].
  - intros (i & Hi & Hle). exists (i - (length l - k)). rewrite lookup_drop.
    by replace (length l - k + (i - (length l - k))) with i by lia.
Qed.

End Rows.

(** ** Shapes and missing values under normalisation *)

Module Scaling.
Import Np.

Lemma foldl_add_nan (l : list float) : foldl PrimFloat.add nan l = nan.
Proof.
  induction l as [|x l IH]; [done|]. cbn [foldl]. by rewrite NaN.add_nan_l.
Qed.

Lemma sum_with_nan (l : list float) : nan ∈ l → Np.sum l = nan.
Proof.
  unfold Np.sum. cbn [add zero float64]. generalize 0%float.
  induction l as [|x l IH]; intros acc Hin; [by apply elem_of_nil in Hin|].
  cbn [foldl]. apply elem_of_cons in Hin as [<-|Hin].
  - by rewrite NaN.add_nan_r, foldl_add_nan.
  - by apply IH.
Qed.

Lemma mean_with_nan (l : list float) : nan ∈ l → Np.mean l = nan.
Proof.
  intros Hin. unfold Np.mean. rewrite sum_with_nan by done.
  cbn [div float64]. apply NaN.div_nan_l.
Qed.

Lemma length_broadcast {A} `{Dtype A} op (rows : list (list A)) v :
  length (broadcast op rows v) = length rows.
Proof. unfold broadcast. by rewrite length_fmap. Qed.

Lemma broadcast_widths {A} `{Dtype A} op (rows : list (list A)) v n :
  length v = n → Forall (λ row : list A, length row = n) rows →
  Forall (λ row : list A, length row = n) (broadcast op rows v).
Proof.
  intros Hv Hrows. unfold broadcast. apply Forall_fmap.
  eapply Forall_impl; [exact Hrows|]. intros row Hrow. unfold compose. cbv beta in *.
  rewrite length_zip_with, Hrow, Hv. lia.
Qed.

Lemma scaled_axis0_cell {A} `{Dtype A} (fmean fstd : list A → A) ncols
    (stats_rows rows : list (list A)) i j row x :
  rows !! i = Some row → row !! j = Some x → j < ncols →
  ∃ row',
    broadcast div (broadcast sub rows (axis0 fmean ncols stats_rows))
              (axis0 fstd ncols stats_rows) !! i = Some row'
    ∧ row' !! j
      = Some (div (sub x (fmean (column j stats_rows)))
                  (fstd (column j stats_rows))).
Proof.
  intros Hrow Hx Hj.
  eapply Normalizer.scaled_cell; eauto using Np.lookup_axis0.
Qed.

(** [print(train_values[0])], the statement that follows the scaling in
    both cells: the row it prints, [None] for the [IndexError] of an array
    without rows. *)
Definition sample_entry {A} (s : Normalizer.scaled A) : option (list A) :=
  Normalizer.train_values s !! 0.

End Scaling.

(** ** pandas: columns by name

    [get_loc], [df[name].tolist()], [df.drop] and [df.iloc]. *)

Module Pandas.
Import Builder.

Lemma get_loc_cons name c cols :
  get_loc name (c :: cols)
  = if decide (c = name) then Some 0 else S <$> get_loc name cols.
Proof.
  unfold get_loc. cbn [list_find]. destruct (decide (c = name)); [done|].
  by destruct (list_find _ cols) as [[j c']|].
Qed.

Lemma get_loc_None name cols : get_loc name cols = None ↔ name ∉ cols.
Proof.
  induction cols as [|c cols IH].
  - split; [intros _; apply not_elem_of_nil|done].
  - rewrite get_loc_cons, not_elem_of_cons.
    destruct (decide (c = name)) as [->|Hc].
    + split; [done|]. by intros [? _].
    + destruct (get_loc name cols); simpl.
      * split; [done|]. intros [_ Hin]. by apply IH in Hin.
      * split; [|done]. intros _. split; [done|]. by apply IH.
Qed.

Lemma get_loc_Some name cols j :
  get_loc name cols = Some j → cols !! j = Some name.
Proof.
  unfold get_loc. destruct (list_find _ cols) as [[j' c]|] eqn:Hf; [|done].
  intros [= <-]. by apply list_find_Some in Hf as (Hj & -> & _).
Qed.

Lemma get_loc_inj name name' cols j :
  get_loc name cols = Some j → get_loc name' cols = Some j → name = name'.
Proof. intros H1%get_loc_Some H2%get_loc_Some. congruence. Qed.

(** [df[name].tolist()]: the column called [name], [None] for [KeyError]. *)
Definition tolist (name : string) (df : DataFrame) : option (list float) :=
  j ← get_loc name (columns df); mapM (λ row : list float, row !! j) (values df).

(** The cells of one row that [drop] keeps: those whose column is not
    called [name]. *)
Definition drop_cells (name : string) (cols : list string) (row : list float) :
    list float :=
  (filter (λ cx : string * float, cx.1 ≠ name) (zip cols row)).*2.

(** [df.drop([name], axis=1)]: every column called [name] is removed;
    [None] for the [KeyError] of a name that is no column. *)
Definition drop (name : string) (df : DataFrame) : option DataFrame :=
  if bool_decide (name ∈ columns df) then
    Some {| columns := filter (λ c, c ≠ name) (columns df);
            values := drop_cells name (columns df) <$> values df |}
  else None.

(** [[list(df.iloc[x]) for x in range(n)]], [None] for [IndexError]. *)
Definition iloc_rows (n : nat) (df : DataFrame) : option (list (list float)) :=
  mapM (λ x, values df !! x) (Py.range n).

Lemma drop_cells_cons name c cols x row :
  drop_cells name (c :: cols) (x :: row)
  = if decide (c = name) then drop_cells name cols row
    else x :: drop_cells name cols row.
Proof.
  unfold drop_cells. cbn [zip zip_with]. rewrite filter_cons. cbn [fst].
  destruct (decide (c ≠ name)) as [Hc|Hc]; destruct (decide (c = name)); done.
Qed.

Lemma length_drop_cells name cols row :
  length row = length cols →
  length (drop_cells name cols row) = length (filter (λ c, c ≠ name) cols).
Proof.
  revert row. induction cols as [|c cols IH]; intros [|x row] Hlen; try done.
  injection Hlen as Hlen. rewrite drop_cells_cons, filter_cons.
  destruct (decide (c = name)) as [->|Hc].
  - rewrite decide_False by (by intros []). by apply IH.
  - rewrite decide_True by done. simpl. f_equal. by apply IH.
Qed.

(** A kept column holds after [drop] what it held before. *)
Lemma lookup_drop_cells name name' cols row :
  name' ≠ name → length row = length cols →
  (get_loc name' (filter (λ c, c ≠ name) cols) ≫= (drop_cells name cols row !!.))
  = (get_loc name' cols ≫= (row !!.)).
Proof.
  intros Hne. revert row.
  induction cols as [|c cols IH]; intros [|x row] Hlen; try done.
  injection Hlen as Hlen. specialize (IH row Hlen).
  rewrite drop_cells_cons, filter_cons, (get_loc_cons name' c cols).
  destruct (decide (c = name)) as [->|Hc].
  - rewrite decide_False by (by intros []).
    rewrite decide_False by done. rewrite IH.
    by destruct (get_loc name' cols).
  - rewrite decide_True by done. rewrite get_loc_cons.
    destruct (decide (c = name')); [done|].
    destruct (get_loc name' (filter (λ c0 : string, c0 ≠ name) cols)) as [j|];
      destruct (get_loc name' cols) as [j'|]; simpl in *; done.
Qed.

Lemma drop_Some name df :
  name ∈ columns df →
  drop name df
  = Some {| columns := filter (λ c, c ≠ name) (columns df);
            values := drop_cells name (columns df) <$> values df |}.
Proof. intros Hin. unfold drop. by rewrite bool_decide_eq_true_2. Qed.

Lemma cell_drop name name' cols rows i :
  name' ≠ name →
  Forall (λ row : list float, length row = length cols) rows →
  cell {| columns := filter (λ c, c ≠ name) cols;
          values := drop_cells name cols <$> rows |} i name'
  = cell {| columns := cols; values := rows |} i name'.
Proof.
  intros Hne Hrows. unfold cell. cbn [columns values].
  rewrite list_lookup_fmap.
  destruct (rows !! i) as [row|] eqn:Hrow; simpl.
  - rewrite Forall_lookup in Hrows.
    pose proof (lookup_drop_cells name name' cols row Hne (Hrows i row Hrow)) as Hc.
    destruct (get_loc name' (filter (λ c, c ≠ name) cols)) as [j|];
      destruct (get_loc name' cols) as [j'|]; simpl in *; done.
  - destruct (get_loc name' (filter (λ c, c ≠ name) cols)) as [j|];
      destruct (get_loc name' cols) as [j'|]; simpl in *; done.
Qed.

Lemma cell_dropped name cols rows i :
  cell {| columns := filter (λ c, c ≠ name) cols; values := rows |} i name = None.
Proof.
  unfold cell. cbn [columns].
  assert (get_loc name (filter (λ c, c ≠ name) cols) = None) as ->; [|done].
  apply get_loc_None. rewrite list_elem_of_filter. by intros [? _].
Qed.

Lemma mapM_lookup_seq {B} (l : list B) (k : nat) :
  mapM (λ x, l !! x) (seq k (length l - k)) = Some (List.skipn k l).
Proof.
  apply mapM_Some. apply Forall2_same_length_lookup. split.
  - by rewrite length_seq, length_drop.
  - intros i x b Hx Hb. apply lookup_seq in Hx as [-> _].
    by rewrite lookup_drop in Hb.
Qed.

Lemma iloc_rows_all cols rows :
  iloc_rows (length rows) {| columns := cols; values := rows |} = Some rows.
Proof.
  unfold iloc_rows, Py.range. cbn [values].
  pose proof (mapM_lookup_seq rows 0) as Hm.
  by rewrite Nat.sub_0_r in Hm.
Qed.

Lemma tolist_Some name cols rows j :
  get_loc name cols = Some j →
  Forall (λ row : list float, length row = length cols) rows →
  ∃ col, tolist name {| columns := cols; values := rows |} = Some col
    ∧ length col = length rows
    ∧ ∀ i, i < length rows →
        col !! i = cell {| columns := cols; values := rows |} i name.
Proof.
  intros Hj Hrows. unfold tolist, cell. cbn [columns values]. rewrite Hj. simpl.
  destruct (mapM (λ row : list float, row !! j) rows) as [col|] eqn:Hcol.
  - exists col. split; [done|]. apply mapM_Some in Hcol.
    split; [symmetry; by eapply Forall2_length|].
    intros i Hi. destruct (lookup_lt_is_Some_2 rows i Hi) as [row Hrow].
    rewrite Hrow. simpl.
    destruct (Forall2_lookup_l _ _ _ _ _ Hcol Hrow) as (x & Hx & Hcell).
    by rewrite Hx, Hcell.
  - exfalso. apply mapM_None in Hcol. apply Exists_exists in Hcol as (row & Hin & Hnone).
    rewrite Forall_forall in Hrows. apply lookup_ge_None in Hnone.
    pose proof (get_loc_lt _ _ _ Hj). rewrite (Hrows row Hin) in Hnone. lia.
Qed.

End Pandas.

(** ** What the patch statements leave alone *)

Module Frame.
Import Builder.

Lemma patch_value_Some p df df' :
  patch_value p df = Some df' →
  ∃ a j, get_loc "atomic_number" (columns df) = Some a
    ∧ get_loc (property p) (columns df) = Some j
    ∧ df' = {| columns := columns df;
               values := set_cell a j (atomic_number p) (value p) <$> values df |}.
Proof.
  unfold patch_value.
  destruct (get_loc "atomic_number" (columns df)) as [a|]; [|done].
  destruct (get_loc (property p) (columns df)) as [j|]; [|done].
  intros [= <-]. by exists a, j.
Qed.

Lemma patch_value_None p df :
  patch_value p df = None
  ↔ "atomic_number" ∉ columns df ∨ property p ∉ columns df.
Proof.
  unfold patch_value. rewrite <- !Pandas.get_loc_None.
  destruct (get_loc "atomic_number" (columns df)) as [a|];
    destruct (get_loc (property p) (columns df)) as [j|]; simpl;
    intuition congruence.
Qed.

Lemma set_cell_lookup_ne a j z v row c :
  c ≠ j → set_cell a j z v row !! c = row !! c.
Proof.
  intros Hc. unfold set_cell. destruct has_atomic_number; [|done].
  by apply list_lookup_insert_ne.
Qed.

Lemma set_cell_unmatched a j z v row :
  has_atomic_number a z row = false → set_cell a j z v row = row.
Proof. intros Hz. unfold set_cell. by rewrite Hz. Qed.

Lemma consistent_column a rps z j v :
  consistent a rps = true → (z, j, v) ∈ rps → j ≠ a.
Proof.
  induction rps as [|[[z0 j0] v0] rps IH]; [by intros _ ?%elem_of_nil|].
  intros (Hj & _ & _ & Hc)%consistent_cons [Heq|Hin]%elem_of_cons.
  - by injection Heq as -> -> ->.
  - by apply IH.
Qed.

(** The patches leave the atomic number of every row as it is. *)
Lemma has_atomic_number_patch_row a rps z row :
  consistent a rps = true →
  has_atomic_number a z (patch_row a rps row) = has_atomic_number a z row.
Proof.
  intros Hc. unfold has_atomic_number.
  rewrite (patch_row_untouched a rps row a Hc); [done|].
  intros z' j' v' Hin ->. by apply (consistent_column _ _ _ _ _ Hc) in Hin.
Qed.

(** Patching a patched row changes nothing. *)
Lemma patch_row_idemp a rps row :
  consistent a rps = true →
  patch_row a rps (patch_row a rps row) = patch_row a rps row.
Proof.
  intros Hc. apply list_eq. intros j.
  destruct (existsb (λ '(z, j', _), (j' =? j) && has_atomic_number a z row) rps)
    eqn:Hex.
  - apply existsb_exists in Hex as ([[z j'] v] & Hin & Hm).
    apply andb_true_iff in Hm as [->%Nat.eqb_eq Hz]. apply list_elem_of_In in Hin.
    destruct (decide (j < length row)) as [Hj|Hj].
    + rewrite (patch_row_patched a rps row z j v) by done.
      apply (patch_row_patched a rps _ z j v); try done.
      * by rewrite has_atomic_number_patch_row.
      * by rewrite length_patch_row.
    + rewrite !lookup_ge_None_2; [done| |]; rewrite ?length_patch_row; lia.
  - apply patch_row_untouched; [done|].
    intros z j' v Hin ->. rewrite has_atomic_number_patch_row by done.
    destruct (has_atomic_number a z row) eqn:Hz; [|done].
    assert (existsb (λ '(z, j', _), (j' =? j) && has_atomic_number a z row) rps
            = true) as Ht; [|congruence].
    apply existsb_exists. exists (z, j, v). split; [by apply list_elem_of_In|].
    by rewrite Nat.eqb_refl, Hz.
Qed.

End Frame.

(** ** Features and labels of the regression notebook

    The cell of the regression notebook that stores the labels apart:
    [[
    all_labels = df['youngs_modulus'].tolist()
    df = df.drop(['youngs_modulus'], axis=1)
    ...
    all_values = [list(df.iloc[x]) for x in range(len(all_values))]
    ]] *)
Module Dataset.
Import Builder.

Record dataset := {
  frame : DataFrame;
  all_values : list (list float);
  all_labels : list float
}.

Definition split_labels (mendel pymat : database) (elements : list string) :
    option dataset :=
  df ← YoungsModulus.build mendel pymat elements;
  all_labels ← Pandas.tolist "youngs_modulus" df;
  df ← Pandas.drop "youngs_modulus" df;
  all_values ← Pandas.iloc_rows
                  (length (query mendel pymat YoungsModulus.querable_mendeleev
                             YoungsModulus.querable_pymatgen elements)) df;
  Some {| frame := df; all_values := all_values; all_labels := all_labels |}.

Definition feature_columns : list string :=
  filter (λ c, c ≠ "youngs_modulus") YoungsModulus.querable_values.

Lemma patched_rows_length mendel pymat elements :
  Forall (λ row : list float, length row = length YoungsModulus.querable_values)
    (patch_row 0 YoungsModulus.located_patches
     <$> values (YoungsModulus.queried mendel pymat elements)).
Proof.
  apply Forall_fmap.
  eapply Forall_impl; [apply YoungsModulus.queried_rows_length|].
  intros row Hrow. unfold compose. by rewrite length_patch_row.
Qed.

Lemma patched_rows_count mendel pymat elements :
  length (patch_row 0 YoungsModulus.located_patches
          <$> values (YoungsModulus.queried mendel pymat elements))
  = length elements.
Proof.
  unfold YoungsModulus.queried, from_values, query. cbn [values].
  by rewrite !length_fmap.
Qed.

End Dataset.

(** ** The linear-regression notebook's query loop

    Six lists, one entry per element each. *)

Module Linreg.

Record data := Data {
  data_youngs_modulus : list (option float);
  data_lattice_constant : list (option float);
  data_melting_point : list (option float);
  data_specific_heat : list (option float);
  data_atomic_mass : list (option float);
  data_CTE : list (option float)
}.

Section Loop.
Variables mendel pymat : Builder.database.

(** The body of [for item in elements]. *)
Definition iteration (d : data) (item : string) : data :=
  {| data_youngs_modulus := data_youngs_modulus d ++ [pymat item "youngs_modulus"];
     data_lattice_constant :=
       data_lattice_constant d ++ [mendel item "lattice_constant"];
     data_melting_point := data_melting_point d ++ [mendel item "melting_point"];
     data_specific_heat := data_specific_heat d ++ [mendel item "specific_heat"];
     data_atomic_mass := data_atomic_mass d ++ [pymat item "atomic_mass"];
     data_CTE :=
       data_CTE d ++ [pymat item "coefficient_of_linear_thermal_expansion"] |}.

Definition query (elements : list string) : data :=
  foldl iteration (Data [] [] [] [] [] []) elements.

Lemma linreg_foldl_iteration elements d :
  foldl iteration d elements
  = {| data_youngs_modulus :=
         data_youngs_modulus d ++ ((λ e, pymat e "youngs_modulus") <$> elements);
       data_lattice_constant :=
         data_lattice_constant d ++ ((λ e, mendel e "lattice_constant") <$> elements);
       data_melting_point :=
         data_melting_point d ++ ((λ e, mendel e "melting_point") <$> elements);
       data_specific_heat :=
         data_specific_heat d ++ ((λ e, mendel e "specific_heat") <$> elements);
       data_atomic_mass :=
         data_atomic_mass d ++ ((λ e, pymat e "atomic_mass") <$> elements);
       data_CTE :=
         data_CTE d
         ++ ((λ e, pymat e "coefficient_of_linear_thermal_expansion") <$> elements) |}.
Proof.
  revert d. induction elements as [|item elements IH]; intros d.
  - destruct d. simpl. by rewrite !app_nil_r.
  - cbn [foldl]. rewrite IH. unfold iteration.
    cbn [data_youngs_modulus data_lattice_constant data_melting_point
         data_specific_heat data_atomic_mass data_CTE].
    by rewrite !fmap_cons, <- !app_assoc.
Qed.

End Loop.

End Linreg.

(** ** The table of true and predicted crystal structures *)

Module Structures.
Import Builder.

(** [np.argmax] of one row: the position of the first NaN if the row has
    one, else of the first maximum; [None] for the [ValueError] of an empty
    row. *)
Fixpoint argmax_from {B} (isnan : B → bool) (lt : B → B → bool)
    (best : nat) (top : B) (i : nat) (l : list B) : nat :=
  match l with
  | [] => best
  | x :: l =>
      if isnan x then i
      else if lt top x then argmax_from isnan lt i x (S i) l
      else argmax_from isnan lt best top (S i) l
  end.

Definition argmax {B} (isnan : B → bool) (lt : B → B → bool) (l : list B) :
    option nat :=
  match l with
  | [] => None
  | x :: l => Some (if isnan x then 0 else argmax_from isnan lt 0 x 1 l)
  end.

Definition argmax_scores : list float → option nat :=
  argmax PrimFloat.is_nan PrimFloat.ltb.
Definition argmax_label : list Z → option nat := argmax (λ _, false) Z.ltb.

(** The name the chain of [if]s appends for a class index, if any. *)
Definition structure_name (k : nat) : option string :=
  match k with
  | 0 => Some "FCC"
  | 1 => Some "BCC"
  | 2 => Some "HCP"
  | _ => None
  end.

(** One iteration of [for i in range(all_predictions.shape[0])]; [None]
    for an index or a row that raises. *)
Definition iteration (all_predictions : list (list float))
    (all_labels : list (list Z)) (st : list string * list string) (i : nat) :
    option (list string * list string) :=
  p ← all_predictions !! i ≫= argmax_scores;
  t ← all_labels !! i ≫= argmax_label;
  Some (st.1 ++ option_list (structure_name p),
        st.2 ++ option_list (structure_name t)).

Fixpoint label_loop (all_predictions : list (list float))
    (all_labels : list (list Z)) (index : list nat)
    (st : list string * list string) : option (list string * list string) :=
  match index with
  | [] => Some st
  | i :: index =>
      iteration all_predictions all_labels st i
      ≫= label_loop all_predictions all_labels index
  end.

(** [np.concatenate((atomic_number_array, true_labels, predicted_labels),
    axis=1)] of three one-column arrays: [None] for the [ValueError] of
    columns of different lengths. *)
Definition concatenate (atomic_number_array : list float)
    (true_labels predicted_labels : list string) :
    option (list (float * string * string)) :=
  if (length atomic_number_array =? length true_labels)
     && (length true_labels =? length predicted_labels)
  then Some (zip (zip atomic_number_array true_labels) predicted_labels)
  else None.

(** The notebook from the loop over the elements to [plot_table];
    [predict_row] is the fitted network on one row. *)
Definition plot_table (mendel pymat : database) (elements : list string)
    (training_count testing_count : nat) (predict_row : list float → list float) :
    option (list (float * string * string)) :=
  let '(queried_values, all_labels) :=
    Classification.query_loop mendel pymat elements in
  df ← Classification.build mendel pymat elements;
  all_values ← Pandas.iloc_rows (length queried_values) df;
  let train_labels := Partition.train_rows training_count all_labels in
  let test_labels := Partition.test_rows testing_count all_labels in
  let s := Normalizer.normalize_nan (length Classification.querable_values)
             training_count testing_count all_values in
  let train_predictions := predict_row <$> Normalizer.train_values s in
  let test_predictions := predict_row <$> Normalizer.test_values s in
  let all_labels := train_labels ++ test_labels in
  let all_predictions := train_predictions ++ test_predictions in
  '(predicted_labels, true_labels) ←
    label_loop all_predictions all_labels
      (Py.range (length all_predictions)) ([], []);
  atomic_number_array ← mapM (λ row : list float, row !! 0) (values df);
  concatenate atomic_number_array true_labels predicted_labels.

Lemma argmax_from_lt {B} (isnan : B → bool) lt best top i (l : list B) :
  best < i → argmax_from isnan lt best top i l < i + length l.
Proof.
  revert best top i. induction l as [|x l IH]; intros best top i Hb.
  - simpl. lia.
  - cbn [argmax_from length]. destruct (isnan x); [lia|].
    destruct (lt top x).
    + specialize (IH i x (S i)). lia.
    + specialize (IH best top (S i)). lia.
Qed.

Lemma argmax_Some {B} (isnan : B → bool) lt (l : list B) :
  l ≠ [] → ∃ c, argmax isnan lt l = Some c ∧ c < length l.
Proof.
  destruct l as [|x l]; [done|]. intros _. eexists. split; [reflexivity|].
  destruct (isnan x); [simpl; lia|].
  pose proof (argmax_from_lt isnan lt 0 x 1 l). simpl. lia.
Qed.

Lemma structure_name_Some c :
  c < 3 → ∃ name, structure_name c = Some name ∧ name ∈ ["FCC"; "BCC"; "HCP"].
Proof.
  intros Hc. destruct c as [|[|[|c]]]; [| | |lia];
    (eexists; split; [reflexivity|]);
    apply (bool_decide_unpack _); by vm_compute.
Qed.

(** The name appended for a row of three scores. *)
Definition predicted_name (scores : list float) : string :=
  default "" (argmax_scores scores ≫= structure_name).
Definition true_name (label : list Z) : string :=
  default "" (argmax_label label ≫= structure_name).

Lemma predicted_name_Some scores :
  length scores = 3 →
  ∃ c, argmax_scores scores = Some c
    ∧ structure_name c = Some (predicted_name scores)
    ∧ predicted_name scores ∈ ["FCC"; "BCC"; "HCP"].
Proof.
  intros Hlen.
  destruct (argmax_Some PrimFloat.is_nan PrimFloat.ltb scores) as (c & Hc & Hlt).
  { by destruct scores. }
  destruct (structure_name_Some c) as (name & Hname & Hin); [lia|].
  exists c. unfold predicted_name. fold argmax_scores in Hc.
  rewrite Hc. simpl. by rewrite Hname.
Qed.

Lemma true_name_label item lab :
  Classification.label_of item = Some lab →
  ∃ c, argmax_label lab = Some c ∧ structure_name c = Some (true_name lab)
    ∧ (true_name lab = "FCC" ↔ item ∈ Classification.fcc_elements)
    ∧ (true_name lab = "BCC"
       ↔ (item ∉ Classification.fcc_elements) ∧ item ∈ Classification.bcc_elements)
    ∧ (true_name lab = "HCP"
       ↔ (item ∉ Classification.fcc_elements)
         ∧ (item ∉ Classification.bcc_elements)
         ∧ item ∈ Classification.hcp_elements).
Proof.
  unfold Classification.label_of.
  repeat case_bool_decide; intros [= <-];
    (eexists; split; [reflexivity|]); split; try reflexivity;
    split_and!; split; try done; tauto.
Qed.

Lemma label_loop_app preds labels index1 index2 st :
  label_loop preds labels (index1 ++ index2) st
  = label_loop preds labels index1 st ≫= label_loop preds labels index2.
Proof.
  revert st. induction index1 as [|i index1 IH]; intros st; [done|].
  cbn [app label_loop].
  destruct (iteration preds labels st i) as [st'|]; [|done]. simpl. apply IH.
Qed.

(** After [m] iterations the loop has appended one name per row. *)
Lemma label_loop_take preds labels (elements : list string) m :
  Forall (λ scores : list float, length scores = 3) preds →
  Forall2 (λ item lab, Classification.label_of item = Some lab) elements labels →
  m ≤ length preds → m ≤ length labels →
  label_loop preds labels (seq 0 m) ([], [])
  = Some (predicted_name <$> take m preds, true_name <$> take m labels).
Proof.
  intros Hpreds Hlabels. induction m as [|m IH]; intros Hm1 Hm2.
  - by rewrite !take_0.
  - rewrite seq_S, label_loop_app, IH by lia. cbn [mbind option_bind Nat.add].
    destruct (lookup_lt_is_Some_2 preds m) as [scores Hscores]; [lia|].
    destruct (lookup_lt_is_Some_2 labels m) as [lab Hlab]; [lia|].
    rewrite (take_S_r preds m scores), (take_S_r labels m lab) by done.
    rewrite !fmap_app. cbn [label_loop]. unfold iteration.
    rewrite Hscores, Hlab. cbn [mbind option_bind].
    rewrite Forall_lookup in Hpreds.
    destruct (predicted_name_Some scores (Hpreds m scores Hscores))
      as (c & Hc & Hname & _).
    destruct (Forall2_lookup_r _ _ _ _ _ Hlabels Hlab) as (item & _ & Hitem).
    destruct (true_name_label item lab Hitem) as (c' & Hc' & Hname' & _).
    rewrite Hc. cbn [mbind option_bind]. rewrite Hc'. cbn [mbind option_bind].
    by rewrite Hname, Hname'.
Qed.

Lemma concatenate_Some zs ts ps :
  length zs = length ts → length ts = length ps →
  concatenate zs ts ps = Some (zip (zip zs ts) ps).
Proof.
  intros H1 H2. unfold concatenate.
  by rewrite (proj2 (Nat.eqb_eq _ _) H1), (proj2 (Nat.eqb_eq _ _) H2).
Qed.

Lemma clf_patched_rows_length mendel pymat elements :
  Forall (λ row : list float, length row = length Classification.querable_values)
    (patch_row 0 Classification.located_patches
     <$> values (Classification.queried mendel pymat elements)).
Proof.
  apply Forall_fmap.
  eapply Forall_impl; [apply Classification.clf_queried_rows_length|].
  intros row Hrow. unfold compose. by rewrite length_patch_row.
Qed.

Lemma clf_patched_rows_count mendel pymat elements :
  length (patch_row 0 Classification.located_patches
          <$> values (Classification.queried mendel pymat elements))
  = length elements.
Proof.
  unfold Classification.queried, from_values.
  rewrite Classification.query_loop_spec. unfold query. cbn [values fst].
  by rewrite !length_fmap.
Qed.

Lemma first_column (rows : list (list float)) n :
  0 < n → Forall (λ row : list float, length row = n) rows →
  ∃ col, mapM (λ row : list float, row !! 0) rows = Some col
    ∧ length col = length rows
    ∧ ∀ i row, rows !! i = Some row → col !! i = row !! 0.
Proof.
  intros Hn Hrows.
  destruct (mapM (λ row : list float, row !! 0) rows) as [col|] eqn:Hcol.
  - exists col. split; [done|]. apply mapM_Some in Hcol.
    split; [symmetry; by eapply Forall2_length|].
    intros i row Hrow.
    destruct (Forall2_lookup_l _ _ _ _ _ Hcol Hrow) as (x & Hx & Hcell).
    by rewrite Hx, Hcell.
  - exfalso. apply mapM_None in Hcol.
    apply Exists_exists in Hcol as (row & Hin & Hnone).
    rewrite Forall_forall in Hrows. apply lookup_ge_None in Hnone.
    rewrite (Hrows row Hin) in Hnone. lia.
Qed.

End Structures.

(** ** The bar chart of the predicted probabilities

    One subplot per list of elements, three bars per element. *)

Module BarChart.

Record Bar := {
  x : list string;
  y : list float;
  name : string;
  color : string;
  text : list (option string);
  row : nat
}.

(** [[
    for item in range(len(all_predictions)):
        FCC_prediction.append(all_predictions[item].tolist()[0])
        BCC_prediction.append(all_predictions[item].tolist()[1])
        HCP_prediction.append(all_predictions[item].tolist()[2])
    ]]
    [None] for the [IndexError] of a row of fewer than three scores. *)
Definition iteration (all_predictions : list (list float))
    (st : list float * list float * list float) (item : nat) :
    option (list float * list float * list float) :=
  let '(FCC_prediction, BCC_prediction, HCP_prediction) := st in
  scores ← all_predictions !! item;
  fcc ← scores !! 0;
  bcc ← scores !! 1;
  hcp ← scores !! 2;
  Some (FCC_prediction ++ [fcc], BCC_prediction ++ [bcc], HCP_prediction ++ [hcp]).

Fixpoint prediction_loop (all_predictions : list (list float))
    (index : list nat) (st : list float * list float * list float) :
    option (list float * list float * list float) :=
  match index with
  | [] => Some st
  | item :: index =>
      iteration all_predictions st item ≫= prediction_loop all_predictions index
  end.

Definition class_predictions (all_predictions : list (list float)) :
    option (list float * list float * list float) :=
  prediction_loop all_predictions (Py.range (length all_predictions)) ([], [], []).

(** [[_ for _ in elements if _ in group]] *)
Definition bar_x (group elements : list string) : list string :=
  filter (λ e, e ∈ group) elements.

(** [[prediction[_] for _ in range(len(prediction)) if elements[_] in group]],
    [None] for the [IndexError] of [elements[_]]. *)
Definition bar_y (group elements : list string) (prediction : list float) :
    option (list float) :=
  picked ← mapM (λ i, e ← elements !! i; p ← prediction !! i;
                      Some (if bool_decide (e ∈ group) then Some p else None))
                (Py.range (length prediction));
  Some (omap (λ o : option float, o) picked).

(** [['*' if _ in elements[-7:] else None for _ in x]] *)
Definition stars (testing_count : nat) (elements xs : list string) :
    list (option string) :=
  (λ e, if bool_decide (e ∈ Partition.test_rows testing_count elements)
        then Some "*" else None) <$> xs.

Definition bar (testing_count : nat) (elements group : list string)
    (prediction : list float) (name color : string) (starred : bool) (row : nat) :
    option Bar :=
  y ← bar_y group elements prediction;
  Some {| x := bar_x group elements; y := y; name := name; color := color;
          text := if starred
                  then stars testing_count elements (bar_x group elements)
                  else [];
          row := row |}.

(** The nine [fig.append_trace(go.Bar(...), row=..., col=1)], in order. *)
Definition traces (testing_count : nat) (elements : list string)
    (FCC_prediction BCC_prediction HCP_prediction : list float) :
    option (list Bar) :=
  let fcc_elements := Classification.fcc_elements in
  let bcc_elements := Classification.bcc_elements in
  let hcp_elements := Classification.hcp_elements in
  let bar := bar testing_count elements in
  mapM (λ b : option Bar, b)
    [ bar fcc_elements FCC_prediction "FCC" "green" true 1;
      bar fcc_elements BCC_prediction "BCC" "red" false 1;
      bar fcc_elements HCP_prediction "HCP" "red" false 1;
      bar bcc_elements FCC_prediction "FCC" "red" false 2;
      bar bcc_elements BCC_prediction "BCC" "green" true 2;
      bar bcc_elements HCP_prediction "HCP" "red" false 2;
      bar hcp_elements FCC_prediction "FCC" "red" false 3;
      bar hcp_elements BCC_prediction "BCC" "red" false 3;
      bar hcp_elements HCP_prediction "HCP" "green" true 3 ].

Definition figure (testing_count : nat) (elements : list string)
    (all_predictions : list (list float)) : option (list Bar) :=
  '(FCC_prediction, BCC_prediction, HCP_prediction) ←
    class_predictions all_predictions;
  traces testing_count elements FCC_prediction BCC_prediction HCP_prediction.

(** The bars of one trace: each element with the height of its bar. *)
Definition bars (b : Bar) : list (string * float) := zip (x b) (y b).

Lemma prediction_loop_app preds index1 index2 st :
  prediction_loop preds (index1 ++ index2) st
  = prediction_loop preds index1 st ≫= prediction_loop preds index2.
Proof.
  revert st. induction index1 as [|i index1 IH]; intros st; [done|].
  cbn [app prediction_loop].
  destruct (iteration preds st i) as [st'|]; [|done]. simpl. apply IH.
Qed.

Definition score (c : nat) (scores : list float) : float :=
  default 0%float (scores !! c).

Lemma prediction_loop_take preds m :
  Forall (λ scores : list float, length scores = 3) preds →
  m ≤ length preds →
  prediction_loop preds (seq 0 m) ([], [], [])
  = Some (score 0 <$> take m preds, score 1 <$> take m preds,
          score 2 <$> take m preds).
Proof.
  intros Hpreds. induction m as [|m IH]; intros Hm.
  - by rewrite !take_0.
  - rewrite seq_S, prediction_loop_app, IH by lia.
    cbn [mbind option_bind Nat.add prediction_loop].
    destruct (lookup_lt_is_Some_2 preds m) as [scores Hscores]; [lia|].
    rewrite (take_S_r preds m scores) by done. rewrite !fmap_app.
    unfold iteration. rewrite Hscores. cbn [mbind option_bind].
    rewrite Forall_lookup in Hpreds. specialize (Hpreds m scores Hscores).
    destruct scores as [|f [|b [|h [|? ?]]]]; try done.
Qed.

Lemma class_predictions_Some preds :
  Forall (λ scores : list float, length scores = 3) preds →
  class_predictions preds
  = Some (score 0 <$> preds, score 1 <$> preds, score 2 <$> preds).
Proof.
  intros Hpreds. unfold class_predictions, Py.range.
  rewrite prediction_loop_take by done. by rewrite take_ge.
Qed.

Lemma omap_id_filter (group : list string) (l : list (string * float)) :
  omap (λ o : option float, o) ((λ ep : string * float,
              if bool_decide (ep.1 ∈ group) then Some ep.2 else None) <$> l)
  = (filter (λ ep : string * float, ep.1 ∈ group) l).*2.
Proof.
  induction l as [|[e p] l IH]; [done|].
  rewrite fmap_cons, filter_cons. cbn [fst snd].
  case_bool_decide.
  - rewrite decide_True by done. rewrite fmap_cons. cbn [snd].
    change (p :: omap (λ o : option float, o)
                   ((λ ep : string * float,
                       if bool_decide (ep.1 ∈ group) then Some ep.2 else None) <$> l)
            = p :: (filter (λ ep : string * float, ep.1 ∈ group) l).*2).
    by f_equal.
  - rewrite decide_False by done. exact IH.
Qed.

Lemma bar_y_Some group elements prediction :
  length prediction ≤ length elements →
  bar_y group elements prediction
  = Some (filter (λ ep : string * float, ep.1 ∈ group) (zip elements prediction)).*2.
Proof.
  intros Hlen. unfold bar_y, Py.range.
  assert (mapM (λ i, e ← elements !! i; p ← prediction !! i;
                     Some (if bool_decide (e ∈ group) then Some p else None))
               (seq 0 (length prediction))
          = Some ((λ ep : string * float,
                     if bool_decide (ep.1 ∈ group) then Some ep.2 else None)
                  <$> zip elements prediction)) as ->.
  { apply mapM_Some, Forall2_same_length_lookup. split.
    - rewrite length_seq, length_fmap, length_zip_with. lia.
    - intros i j picked Hj Hpicked. apply lookup_seq in Hj as [-> _].
      rewrite list_lookup_fmap, lookup_zip_with in Hpicked. cbn [Nat.add].
      destruct (elements !! i) as [e|]; [|done].
      destruct (prediction !! i) as [p|]; [|done].
      simpl in *. by injection Hpicked as <-. }
  cbn [mbind option_bind]. by rewrite omap_id_filter.
Qed.

Lemma bar_x_fst group elements (prediction : list float) :
  length prediction = length elements →
  bar_x group elements
  = (filter (λ ep : string * float, ep.1 ∈ group) (zip elements prediction)).*1.
Proof.
  unfold bar_x. revert prediction.
  induction elements as [|e elements IH]; intros [|p prediction] Hlen; try done.
  injection Hlen as Hlen. cbn [zip zip_with]. rewrite !filter_cons. cbn [fst].
  destruct (decide (e ∈ group)); simpl; by rewrite <- IH.
Qed.

(** A bar trace pairs each element of its list with the element's own
    score. *)
Lemma bar_Some testing_count elements group prediction label paint starred subplot :
  length prediction = length elements →
  ∃ b, bar testing_count elements group prediction label paint starred subplot
       = Some b
    ∧ name b = label ∧ color b = paint ∧ row b = subplot
    ∧ x b = bar_x group elements
    ∧ text b = (if starred then stars testing_count elements (bar_x group elements)
                else [])
    ∧ bars b = filter (λ ep : string * float, ep.1 ∈ group) (zip elements prediction).
Proof.
  intros Hlen. unfold bar. rewrite bar_y_Some by lia. cbn [mbind option_bind].
  eexists. split; [reflexivity|]. unfold bars. cbn [x y name color row text].
  split_and!; try done.
  rewrite (bar_x_fst group elements prediction) by done. apply zip_fst_snd.
Qed.

End BarChart.

(** ** Example databases *)

Module Examples.

(** Small databases to run the builder on: every attribute is [1], with the
    atomic numbers of silver and caesium in place; [pymat_no_Ag_bulk] has
    no bulk modulus for silver, [pymat_no_Cs_expansion] no thermal
    expansion for caesium. *)
Definition mendel : Builder.database :=
  λ item attr,
    if String.eqb attr "atomic_number" then
      if String.eqb item "Cs" then Some 55%float
      else if String.eqb item "Ag" then Some 47%float
      else Some 1%float
    else Some 1%float.

Definition pymat : Builder.database := λ _ _, Some 1%float.

Definition pymat_no_Ag_bulk : Builder.database :=
  λ item attr,
    if String.eqb item "Ag" && String.eqb attr "bulk_modulus" then None
    else Some 1%float.

Definition pymat_no_Cs_expansion : Builder.database :=
  λ item attr,
    if String.eqb item "Cs"
       && String.eqb attr "coefficient_of_linear_thermal_expansion"
    then None
    else Some 1%float.

End Examples.

(** * The claims *)

(** ** Partitioner/Normalizer *)

(** C1: in both notebooks the per-column mean and standard deviation are
    those of the training rows; every cell of the training features and of
    the testing features is scaled with them, [(x - mean) / std]; and two
    tables with the same training rows get the same statistics, whatever
    their other rows hold. *)
Theorem training_statistics_only {A} `{Np.Dtype A} (nb : Normalizer.notebook)
    (ncols training_count testing_count : nat) (all_values : list (list A)) :
  let s := Normalizer.run nb ncols training_count testing_count all_values in
  let train := Partition.train_rows training_count all_values in
  let test := Partition.test_rows testing_count all_values in
  let mean_of j := Normalizer.column_mean nb (Np.column j train) in
  let std_of j := Normalizer.column_std nb (Np.column j train) in
  Normalizer.mean s = Np.axis0 (Normalizer.column_mean nb) ncols train
  ∧ Normalizer.std s = Np.axis0 (Normalizer.column_std nb) ncols train
  ∧ (∀ i j row x, train !! i = Some row → row !! j = Some x → j < ncols →
       ∃ row', Normalizer.train_values s !! i = Some row'
         ∧ row' !! j = Some (Np.div (Np.sub x (mean_of j)) (std_of j)))
  ∧ (∀ i j row x, test !! i = Some row → row !! j = Some x → j < ncols →
       ∃ row', Normalizer.test_values s !! i = Some row'
         ∧ row' !! j = Some (Np.div (Np.sub x (mean_of j)) (std_of j)))
  ∧ (∀ other : list (list A),
       Partition.train_rows training_count other = train →
       let s' := Normalizer.run nb ncols training_count testing_count other in
       Normalizer.mean s' = Normalizer.mean s
       ∧ Normalizer.std s' = Normalizer.std s).
Proof.
  cbn zeta. rewrite Normalizer.run_standard_score.
  unfold Normalizer.standard_score.
  cbn [Normalizer.mean Normalizer.std Normalizer.train_values
       Normalizer.test_values].
  split_and!; [done|done| | |].
  - intros i j row x Hrow Hx Hj.
    eapply Normalizer.scaled_cell; eauto using Np.lookup_axis0.
  - intros i j row x Hrow Hx Hj.
    eapply Normalizer.scaled_cell; eauto using Np.lookup_axis0.
  - by intros other ->.
Qed.

(** C1, on a table of four rows and one column of which three rows train:
    the testing cell [5] is scaled with the mean [2] and deviation of the
    training rows [1; 2; 3]. *)
Lemma training_statistics_only_witness :
  ∃ row' : list float,
    Normalizer.test_values
      (Normalizer.run Normalizer.NeuralRegression 1 3 1
         [[1]; [2]; [3]; [5]]%float) !! 0 = Some row'
    ∧ row' !! 0
      = Some ((5 - Np.mean [1; 2; 3]) / Np.std [1; 2; 3])%float.
Proof.
  exact (proj1 (proj2 (proj2 (proj2
    (training_statistics_only Normalizer.NeuralRegression 1 3 1
       [[1]; [2]; [3]; [5]]%float))))
    0 0 [5%float] 5%float eq_refl eq_refl (Nat.lt_0_succ 0)).
Defined.

(** C3, as stated, fails for a testing count of zero: [l[-0:]] is the whole
    sequence, so with three rows, two of them training, the testing
    partition has three rows and shares rows 0 and 1 with the training
    partition. *)
Lemma partition_zero_testing_count :
  2 + 0 ≤ length [10; 20; 30]
  ∧ Partition.train_rows 2 [10; 20; 30] = [10; 20]
  ∧ Partition.test_rows 0 [10; 20; 30] = [10; 20; 30]
  ∧ Partition.train_index 2 3 = [0; 1]
  ∧ Partition.test_index 0 3 = [0; 1; 2].
Proof. split_and!; [simpl; lia|reflexivity..]. Qed.

(** C3, amended: for a testing count of at least one and
    [training_count + testing_count ≤ row_count], training is the first
    [training_count] rows, testing the last [testing_count] rows, the two
    have exactly these sizes, and no row index is in both. *)
Theorem partition_invariant {A} (rows : list A) (training_count testing_count : nat) :
  0 < testing_count →
  training_count + testing_count ≤ length rows →
  Partition.train_rows training_count rows = take training_count rows
  ∧ Partition.test_rows testing_count rows
    = drop (length rows - testing_count) rows
  ∧ length (Partition.train_rows training_count rows) = training_count
  ∧ length (Partition.test_rows testing_count rows) = testing_count
  ∧ (∀ i, i ∈ Partition.train_index training_count (length rows) →
          i ∈ Partition.test_index testing_count (length rows) → False).
Proof.
  intros Hk Hn.
  rewrite Partition.train_rows_take, Partition.test_rows_drop by done.
  split_and!; [done|done| | |].
  - rewrite length_take. lia.
  - rewrite length_drop. lia.
  - intros i Htrain%Partition.elem_of_train_index
             Htest%Partition.elem_of_test_index; [lia|done].
Qed.

(** C3 amended, at the sizes of the regression notebook: 44 and 5 of 49. *)
Lemma partition_invariant_witness :
  length (Partition.train_rows 44 (Py.range 49)) = 44
  ∧ length (Partition.test_rows 5 (Py.range 49)) = 5.
Proof.
  assert (0 < 5) as H5 by lia.
  assert (44 + 5 ≤ length (Py.range 49)) as H49 by (vm_compute; lia).
  destruct (partition_invariant (Py.range 49) 44 5 H5 H49)
    as (_ & _ & Htrain & Htest & _).
  exact (conj Htrain Htest).
Defined.

(** C4, as stated, fails in binary64: the mean of three rows of [0.1] is
    rounded to [0.10000000000000002], so the constant training column gets
    the deviation [1.39e-17] instead of zero, and every normalised cell is
    the ordinary number [-1] (in both notebooks). *)
Lemma constant_column_finite_output :
  let all_values := [[0.1]; [0.1]; [0.1]; [0.5]]%float in
  let s := Normalizer.run Normalizer.NeuralRegression 1 3 1 all_values in
  let s' := Normalizer.run Normalizer.Classifier 1 3 1 all_values in
  Np.column 0 (Partition.train_rows 3 all_values) = [0.1; 0.1; 0.1]%float
  ∧ Normalizer.mean s = [0.10000000000000002]%float
  ∧ Normalizer.std s = [1.3877787807814457e-17]%float
  ∧ Normalizer.train_values s = [[-1]; [-1]; [-1]]%float
  ∧ forallb (forallb is_finite) (Normalizer.train_values s) = true
  ∧ Normalizer.train_values s' = [[-1]; [-1]; [-1]]%float.
Proof. cbn zeta. split_and!; reflexivity. Qed.

(** C4, amended: wherever the deviation computed for a column is exactly
    zero, every normalised cell of that column, in the training and in the
    testing features, is NaN or an infinity, never an ordinary finite
    number. *)
Theorem zero_std_not_finite (nb : Normalizer.notebook)
    (ncols training_count testing_count : nat) (all_values : list (list float))
    (i j : nat) (sd y : float) (row : list float) :
  let s := Normalizer.run nb ncols training_count testing_count all_values in
  Normalizer.std s !! j = Some sd →
  (sd =? 0)%float = true →
  Normalizer.train_values s !! i = Some row
  ∨ Normalizer.test_values s !! i = Some row →
  row !! j = Some y →
  is_finite y = false.
Proof.
  cbn zeta. rewrite Normalizer.run_standard_score.
  unfold Normalizer.standard_score.
  cbn [Normalizer.std Normalizer.train_values Normalizer.test_values].
  intros Hsd Hzero [Hrow|Hrow] Hy;
    destruct (Normalizer.scaled_cell_inv _ _ _ _ _ _ _ Hrow Hy)
      as (r & x & m & s & _ & _ & _ & Hs & ->);
    rewrite Hsd in Hs; injection Hs as <-;
    by apply F64.div_zero_not_finite.
Qed.

(** C4 amended, on a training column of ones: its deviation is zero and its
    first normalised cell is NaN. *)
Lemma zero_std_not_finite_witness :
  Normalizer.std
    (Normalizer.run Normalizer.NeuralRegression 1 3 1
       [[1]; [1]; [1]; [2]]%float) !! 0 = Some 0%float
  ∧ is_finite nan = false.
Proof.
  split; [reflexivity|].
  exact (zero_std_not_finite Normalizer.NeuralRegression 1 3 1
           [[1]; [1]; [1]; [2]]%float 0 0 0%float nan [nan]
           eq_refl eq_refl (or_introl eq_refl) eq_refl).
Defined.

(** C5, as stated, fails in binary64, the arithmetic of the notebook: the
    training column [293.15; 293.15; 293.15000000000003] has the computed
    variance [2.15e-27], which is not zero, and after normalisation the
    mean [-0.816] and the standard deviation [0.577], which no
    floating-point tolerance makes 0 and 1. *)
Lemma binary64_column_not_standardised :
  let all_values :=
    [[293.15]; [293.15]; [293.15000000000003]; [300]]%float in
  let train := Partition.train_rows 3 all_values in
  let s := Normalizer.normalize 1 3 1 all_values in
  Np.column 0 train = [293.15; 293.15; 293.15000000000003]%float
  ∧ Np.var (Np.column 0 train) = 2.1541161785235095e-27%float
  ∧ (Np.var (Np.column 0 train) =? 0)%float = false
  ∧ Normalizer.train_values s
    = [[-1.2247448713915889]; [-1.2247448713915889]; [0]]%float
  ∧ Np.mean (Np.column 0 (Normalizer.train_values s))
    = (-0.81649658092772592)%float
  ∧ Np.std (Np.column 0 (Normalizer.train_values s))
    = 0.57735026918962573%float.
Proof. cbn zeta. split_and!; reflexivity. Qed.

(** C5, amended: in exact arithmetic, a column of the training partition
    whose training variance is not zero has mean 0 and standard deviation 1
    after normalisation. *)
Theorem normalized_training_column (ncols training_count testing_count : nat)
    (all_values : list (list R)) (j : nat) :
  let train := Partition.train_rows training_count all_values in
  let s := Normalizer.normalize ncols training_count testing_count all_values in
  j < ncols →
  Np.var (Np.column j train) ≠ 0%R →
  Np.mean (Np.column j (Normalizer.train_values s)) = 0%R
  ∧ Np.std (Np.column j (Normalizer.train_values s)) = 1%R.
Proof.
  cbn zeta. intros Hj Hvar.
  unfold Normalizer.normalize, Normalizer.standard_score.
  cbn [Normalizer.train_values].
  set (train := Partition.train_rows training_count all_values) in *.
  rewrite (Np.column_broadcast Np.div _ _ j (Np.std (Np.column j train)))
    by by apply Np.lookup_axis0.
  rewrite (Np.column_broadcast Np.sub _ _ j (Np.mean (Np.column j train)))
    by by apply Np.lookup_axis0.
  rewrite <- list_fmap_compose. unfold compose. cbn [Np.sub Np.div Np.exact].
  split; [apply Exact.mean_standardised|].
  apply Exact.std_standardised. unfold Np.std. cbn [Np.sqrt Np.exact].
  intros Hs. apply sqrt_eq_0 in Hs; [done|apply Exact.var_nonneg].
Qed.

(** C5, on the training column [1; 3] (mean 2, variance 1). *)
Lemma normalized_training_column_witness :
  Np.mean (Np.column 0 (Normalizer.train_values
             (Normalizer.normalize 1 2 1 [[1]; [3]; [5]]%R))) = 0%R
  ∧ Np.std (Np.column 0 (Normalizer.train_values
             (Normalizer.normalize 1 2 1 [[1]; [3]; [5]]%R))) = 1%R.
Proof.
  apply (normalized_training_column 1 2 1 [[1]; [3]; [5]]%R 0); [lia|].
  change (Np.column 0 (Partition.train_rows 2 [[1]; [3]; [5]]%R))
    with [1; 3]%R.
  assert (Np.var [1; 3]%R = 1%R) as ->; [|lra].
  unfold Np.var, Np.mean, Np.sum.
  cbn [fmap list_fmap foldl length Np.add Np.sub Np.mul Np.div Np.of_nat
       Np.zero Np.exact INR].
  field.
Defined.

(** ** Property Table Builder *)

(** C2: in both notebooks, for every patch of the list and every element
    whose looked-up atomic number is the patch's, the built table holds the
    patch's literal value in the patch's column, whatever the databases
    return for that cell. *)
Theorem patches_take_precedence (mendel pymat : Builder.database)
    (elements : list string) :
  (∃ df, YoungsModulus.build mendel pymat elements = Some df
     ∧ ∀ p i item z,
         p ∈ YoungsModulus.manual_patches → elements !! i = Some item →
         mendel item "atomic_number" = Some z →
         (z =? Builder.atomic_number p)%float = true →
         Builder.cell df i (Builder.property p) = Some (Builder.value p))
  ∧ (∃ df, Classification.build mendel pymat elements = Some df
     ∧ ∀ p i item z,
         p ∈ Classification.manual_patches → elements !! i = Some item →
         mendel item "atomic_number" = Some z →
         (z =? Builder.atomic_number p)%float = true →
         Builder.cell df i (Builder.property p) = Some (Builder.value p)).
Proof.
  split.
  - eexists. split; [apply YoungsModulus.build_total|].
    intros p i item z Hp Hi Hz Heq.
    pose proof (YoungsModulus.queried_row mendel pymat elements i item Hi) as Hrow.
    pose proof (YoungsModulus.queried_rows_length mendel pymat elements) as Hl.
    rewrite Forall_lookup in Hl.
    apply (Builder.patched_cell YoungsModulus.querable_values 0
             YoungsModulus.manual_patches YoungsModulus.located_patches
             YoungsModulus.manual_patches_located
             YoungsModulus.manual_patches_consistent _ p i _ Hp Hrow
             (Hl i _ Hrow)).
    unfold Builder.has_atomic_number, Builder.element_values.
    cbn [YoungsModulus.querable_mendeleev app fmap list_fmap lookup list_lookup].
    by rewrite Hz.
  - eexists. split; [apply Classification.clf_build_total|].
    intros p i item z Hp Hi Hz Heq.
    pose proof (Classification.clf_queried_row mendel pymat elements i item Hi)
      as Hrow.
    pose proof (Classification.clf_queried_rows_length mendel pymat elements)
      as Hl.
    rewrite Forall_lookup in Hl.
    apply (Builder.patched_cell Classification.querable_values 0
             Classification.manual_patches Classification.located_patches
             Classification.clf_manual_patches_located
             Classification.clf_manual_patches_consistent _ p i _ Hp Hrow
             (Hl i _ Hrow)).
    unfold Builder.has_atomic_number, Builder.element_values.
    cbn [Classification.querable_mendeleev app fmap list_fmap lookup
         list_lookup].
    by rewrite Hz.
Qed.

(** C2, where the lookup succeeds: the database gives caesium a thermal
    expansion of [1], and the table holds the patch's [0.000097]. *)
Lemma patches_take_precedence_witness :
  Examples.pymat "Cs" "coefficient_of_linear_thermal_expansion"
  = Some 1%float
  ∧ ∃ df,
      YoungsModulus.build Examples.mendel Examples.pymat ["Ag"; "Cs"]
      = Some df
      ∧ Builder.cell df 1 "coefficient_of_linear_thermal_expansion"
        = Some 0.000097%float.
Proof.
  split; [reflexivity|].
  destruct (proj1 (patches_take_precedence Examples.mendel Examples.pymat
                     ["Ag"; "Cs"])) as (df & Hdf & Hcell).
  exists df. split; [exact Hdf|].
  apply (Hcell (Builder.Patch 55 "coefficient_of_linear_thermal_expansion"
                  0.000097) 1 "Cs" 55%float);
    [apply list_elem_of_here|reflexivity..].
Defined.

(** C6, as stated, fails: when a database has no value for a cell that no
    patch addresses (here the bulk modulus of silver), the cell is still
    missing after the patches. *)
Lemma unpatched_gap_remains :
  Examples.pymat_no_Ag_bulk "Ag" "bulk_modulus" = None
  ∧ YoungsModulus.elements !! 0 = Some "Ag"
  ∧ (YoungsModulus.build Examples.mendel Examples.pymat_no_Ag_bulk
       YoungsModulus.elements
     ≫= λ df, Builder.cell df 0 "bulk_modulus") = Some nan
  ∧ (Builder.complete
     <$> YoungsModulus.build Examples.mendel Examples.pymat_no_Ag_bulk
           YoungsModulus.elements) = Some false.
Proof. split_and!; by vm_compute. Qed.

(** C6, amended: if the databases leave gaps only in cells that a patch
    addresses, the patched table of either notebook has no missing value. *)
Theorem patched_table_complete (mendel pymat : Builder.database)
    (elements : list string) :
  (Builder.gaps_patched YoungsModulus.manual_patches
     (YoungsModulus.queried mendel pymat elements) = true →
   ∃ df, YoungsModulus.build mendel pymat elements = Some df
         ∧ Builder.complete df = true)
  ∧ (Builder.gaps_patched Classification.manual_patches
       (Classification.queried mendel pymat elements) = true →
     ∃ df, Classification.build mendel pymat elements = Some df
           ∧ Builder.complete df = true).
Proof.
  split; intros Hgaps.
  - eexists. split; [apply YoungsModulus.build_total|].
    apply (Builder.patches_complete YoungsModulus.querable_values 0
             YoungsModulus.manual_patches YoungsModulus.located_patches
             YoungsModulus.atomic_number_loc
             YoungsModulus.manual_patches_located
             YoungsModulus.manual_patches_consistent);
      [reflexivity|apply YoungsModulus.queried_rows_length|exact Hgaps].
  - eexists. split; [apply Classification.clf_build_total|].
    apply (Builder.patches_complete Classification.querable_values 0
             Classification.manual_patches Classification.located_patches
             Classification.clf_atomic_number_loc
             Classification.clf_manual_patches_located
             Classification.clf_manual_patches_consistent);
      [reflexivity|apply Classification.clf_queried_rows_length|exact Hgaps].
Qed.

(** C6 amended, with a gap that a patch addresses: the database has no
    thermal expansion for caesium, and the patched table is complete. *)
Lemma patched_table_complete_witness :
  Examples.pymat_no_Cs_expansion "Cs" "coefficient_of_linear_thermal_expansion"
  = None
  ∧ ∃ df,
      YoungsModulus.build Examples.mendel Examples.pymat_no_Cs_expansion
        YoungsModulus.elements = Some df
      ∧ Builder.complete df = true.
Proof.
  split; [reflexivity|].
  apply (proj1 (patched_table_complete Examples.mendel
                  Examples.pymat_no_Cs_expansion YoungsModulus.elements)).
  by vm_compute.
Defined.

(** ** Classification labels *)

(** C10: the three element lists are pairwise disjoint; for any order of
    the declared elements, after each number of iterations the loop has
    appended as many label rows as feature rows, one of each per element;
    the label row of an element stands at the position of its feature row
    and is the one-hot vector of the list the element is in, so it sums to
    1. *)
Theorem one_hot_labels_aligned (mendel pymat : Builder.database)
    (elements : list string) :
  elements ≡ₚ Classification.declared_elements →
  Classification.fcc_elements ## Classification.bcc_elements
  ∧ Classification.fcc_elements ## Classification.hcp_elements
  ∧ Classification.bcc_elements ## Classification.hcp_elements
  ∧ (∀ n, n ≤ length elements →
       let st := Classification.query_loop mendel pymat (take n elements) in
       length st.1 = n ∧ length st.2 = n)
  ∧ (∀ i item, elements !! i = Some item →
       let st := Classification.query_loop mendel pymat elements in
       st.1 !! i
       = Some (Builder.element_values mendel pymat
                 Classification.querable_mendeleev
                 Classification.querable_pymatgen item)
       ∧ ∃ label,
           st.2 !! i = Some label
           ∧ (label = [1; 0; 0]%Z ∨ label = [0; 1; 0]%Z ∨ label = [0; 0; 1]%Z)
           ∧ foldr Z.add 0%Z label = 1%Z
           ∧ (label = [1; 0; 0]%Z ↔ item ∈ Classification.fcc_elements)
           ∧ (label = [0; 1; 0]%Z ↔ item ∈ Classification.bcc_elements)
           ∧ (label = [0; 0; 1]%Z ↔ item ∈ Classification.hcp_elements)).
Proof.
  intros Hperm.
  assert (Forall (λ item, item ∈ Classification.declared_elements) elements)
    as Hall.
  { apply Forall_forall. intros item Hin. by rewrite <- Hperm. }
  pose proof (Classification.omap_label_of elements Hall) as Hlabels.
  destruct Classification.declared_disjoint as (H12 & H13 & H23).
  split_and!; try done.
  - intros n Hn. cbn zeta. rewrite Classification.query_loop_spec.
    cbn [fst snd]. unfold Builder.query. rewrite length_fmap.
    pose proof (Classification.omap_label_of (take n elements)
                  (Forall_take _ n _ Hall)) as Hl.
    apply Forall2_length in Hl. rewrite <- Hl.
    rewrite length_take. lia.
  - intros i item Hi. cbn zeta. rewrite Classification.query_loop_spec.
    cbn [fst snd]. split.
    + unfold Builder.query. by rewrite list_lookup_fmap, Hi.
    + destruct (Forall2_lookup_l _ _ _ _ _ Hlabels Hi) as (label & Hl & Hlab).
      exists label. split; [done|].
      assert (item ∈ Classification.declared_elements) as Hin.
      { rewrite Forall_forall in Hall. apply Hall.
        by eapply list_elem_of_lookup_2. }
      destruct (Classification.label_of_declared item Hin)
        as (label' & Hlab' & Hfcc & Hbcc & Hhcp).
      rewrite Hlab in Hlab'. injection Hlab' as <-.
      split_and!; try done.
      * unfold Classification.label_of in Hlab.
        repeat case_bool_decide; try done; injection Hlab as <-; auto.
      * unfold Classification.label_of in Hlab.
        repeat case_bool_decide; try done; by injection Hlab as <-.
Qed.

(** C10, in the declared order of the elements. *)
Lemma one_hot_labels_aligned_witness :
  length (Classification.query_loop Examples.mendel Examples.pymat
            (take 47 Classification.declared_elements)).2 = 47.
Proof.
  assert (47 ≤ length Classification.declared_elements) as H47
    by (vm_compute; lia).
  exact (proj2 (proj1 (proj2 (proj2 (proj2
    (one_hot_labels_aligned Examples.mendel Examples.pymat
       Classification.declared_elements (reflexivity _))))) 47 H47)).
Defined.

(** ** Evaluator *)

(** C8, as stated, fails for the linear regression: on a line fitted to
    three points and a fourth point off the line, [regression] returns the
    four predictions and reports the mean squared error 4, where the mean
    absolute error is 1. *)
Lemma regression_reports_squared_error :
  let r := Evaluator.regression Evaluator.ols_fit Evaluator.ols_predict
             Evaluator.r2_score
             [0; 1; 2]%float [3]%float [0; 2; 4]%float [10]%float in
  Evaluator.returned r = [0; 2; 4; 6]%float
  ∧ Evaluator.printed_mean_squared_error r = 4%float
  ∧ Evaluator.mean_absolute_error [0; 2; 4; 10]%float (Evaluator.returned r)
    = 1%float.
Proof. cbn zeta. split_and!; reflexivity. Qed.

(** C8, amended: [evaluate] of the neural-network regression returns the
    mean absolute error of the labels against the predictions (as loss and
    as metric), which in exact arithmetic is never negative and is zero for
    predictions equal to the labels; [evaluate] of the classifier returns
    the accuracy, which in exact arithmetic is the number of rows whose
    highest score is at the true class over the number of rows; the linear
    regression's [regression] returns the predictions over the joined data
    and reports their mean squared error and variance score. *)
Theorem evaluate_reports {A} `{Np.Dtype A} :
  (∀ (predict_row : list A → A) values labels,
     Evaluator.evaluate_youngs_modulus predict_row values labels
     = Some (Evaluator.mean_absolute_error labels (predict_row <$> values),
             Evaluator.mean_absolute_error labels (predict_row <$> values)))
  ∧ (∀ xent (predict_row : list A → list A) values labels,
       Evaluator.evaluate_crystal_structure xent predict_row values labels
       = Some (xent labels (predict_row <$> values),
               Evaluator.accuracy labels (predict_row <$> values)))
  ∧ (∀ y_true y_pred : list R,
       (0 <= Evaluator.mean_absolute_error y_true y_pred)%R
       ∧ Evaluator.mean_absolute_error y_true y_true = 0%R)
  ∧ (∀ (y_true : list (list Z)) (y_pred : list (list R)),
       length y_true = length y_pred →
       Evaluator.accuracy y_true y_pred
       = (INR (Evaluator.hits y_true y_pred) / INR (length y_true))%R)
  ∧ (∀ (model : Type) (fit : list A → list A → model) predict r2_score
       x_train x_test y_train y_test,
       let r := Evaluator.regression fit predict r2_score
                  x_train x_test y_train y_test in
       Evaluator.returned r = predict (fit x_train y_train) (x_train ++ x_test)
       ∧ Evaluator.printed_mean_squared_error r
         = Evaluator.mean_squared_error (y_train ++ y_test) (Evaluator.returned r)
       ∧ Evaluator.printed_variance_score r
         = r2_score (y_train ++ y_test) (Evaluator.returned r)).
Proof.
  split_and!; [done|done| |apply Evaluator.accuracy_fraction|done].
  intros y_true y_pred. split.
  - apply Evaluator.mean_absolute_error_nonneg.
  - apply Evaluator.mean_absolute_error_exact_fit.
Qed.

(** C8 amended, on two rows of scores of which the first is classified
    right: the accuracy is one half. *)
Lemma evaluate_reports_witness :
  Evaluator.accuracy [[1; 0; 0]; [0; 1; 0]]%Z
    [[0.7; 0.2; 0.1]; [0.1; 0.3; 0.6]]%R
  = (INR (Evaluator.hits [[1; 0; 0]; [0; 1; 0]]%Z
            [[0.7; 0.2; 0.1]; [0.1; 0.3; 0.6]]%R) / INR 2)%R.
Proof.
  exact (proj1 (proj2 (proj2 (proj2 (evaluate_reports (A := R)))))
           [[1; 0; 0]; [0; 1; 0]]%Z [[0.7; 0.2; 0.1]; [0.1; 0.3; 0.6]]%R
           eq_refl).
Defined.

(** ** Result Visualizer *)

(** C9, as stated, fails in the neural-network regression notebook: with
    three rows, two of them training, the trace named training has three
    points, the last of which is the testing point of the trace named
    testing. *)
Lemma training_trace_holds_testing_points :
  let fig := Visualizer.figure (λ row, default 0%float (head row)) 1 2 1
               [[1]; [2]; [4]]%float [10; 20; 40]%float ["Ag"; "Al"; "Au"] in
  Visualizer.name <$> fig
  = ["Young's Modulus (Training)"; "Young's Modulus (Testing)"; "Match"]
  ∧ Visualizer.points <$> fig !! 0
    = Some [(10, -1); (20, 1); (40, 5)]%float
  ∧ Visualizer.points <$> fig !! 1 = Some [(40, 5)]%float
  ∧ length (Partition.train_rows 2 [10; 20; 40]%float) = 2.
Proof. cbn zeta. split_and!; reflexivity. Qed.

(** C9, amended: training and testing data are drawn as two series of
    different colours (blue and red in the neural-network regression's
    plot, green and red in the linear regression's).  In the linear
    regression's plot the trace named training holds exactly the training
    points and the trace named testing exactly the testing points.  In the
    neural-network regression's plot the trace named testing holds exactly
    the testing points, and the trace named training holds the points of
    every row: when the testing count is at least one and the two
    partitions make up the table, the training points followed by the
    testing points. *)
Theorem trace_contents {A} `{Np.Dtype A} (training_count testing_count : nat) :
  (∀ (predict_row : list A → A) ncols all_values (all_labels : list A) elements,
     length all_values = length all_labels →
     let s := Normalizer.normalize ncols training_count testing_count all_values in
     let training_points :=
       zip (Partition.train_rows training_count all_labels)
           (predict_row <$> Normalizer.train_values s) in
     let testing_points :=
       zip (Partition.test_rows testing_count all_labels)
           (predict_row <$> Normalizer.test_values s) in
     ∃ trace0 trace1 trace2,
       Visualizer.figure predict_row ncols training_count testing_count
         all_values all_labels elements = [trace0; trace1; trace2]
       ∧ Visualizer.name trace0 = "Young's Modulus (Training)"
       ∧ Visualizer.name trace1 = "Young's Modulus (Testing)"
       ∧ Visualizer.color trace0 = "blue"
       ∧ Visualizer.color trace1 = "red"
       ∧ Visualizer.color trace0 ≠ Visualizer.color trace1
       ∧ Visualizer.points trace1 = testing_points
       ∧ Visualizer.points trace0
         = zip all_labels
               (predict_row
                <$> Normalizer.train_values s ++ Normalizer.test_values s)
       ∧ (0 < testing_count →
          training_count + testing_count = length all_labels →
          Visualizer.points trace0 = training_points ++ testing_points))
  ∧ (∀ (data_x data_y : list A) predictions,
       ∃ training actual prediction,
         Visualizer.linreg_figure training_count testing_count
           data_x data_y predictions = [training; actual; prediction]
         ∧ Visualizer.name training = "Training Data"
         ∧ Visualizer.name actual = "Testing Data"
         ∧ Visualizer.color training = "green"
         ∧ Visualizer.color actual = "red"
         ∧ Visualizer.color training ≠ Visualizer.color actual
         ∧ Visualizer.points training
           = zip (Partition.train_rows training_count data_x)
                 (Partition.train_rows training_count data_y)
         ∧ Visualizer.points actual
           = zip (Partition.test_rows testing_count data_x)
                 (Partition.test_rows testing_count data_y)).
Proof.
  split.
  - intros predict_row ncols all_values all_labels elements Hlen. cbn zeta.
    unfold Visualizer.figure, Visualizer.traces. cbn zeta.
    rewrite Visualizer.pick_range, <- Hlen, Visualizer.pick_range.
    eexists _, _, _. split; [reflexivity|].
    unfold Visualizer.points.
    cbn [Visualizer.x Visualizer.y Visualizer.name Visualizer.color].
    split_and!; try done.
    intros Hk Hn. rewrite fmap_app.
    rewrite <- (Visualizer.figure_rows all_labels training_count testing_count)
      at 1 by (done || lia).
    apply zip_with_app.
    rewrite length_fmap. unfold Normalizer.normalize, Normalizer.standard_score.
    cbn [Normalizer.train_values]. unfold Np.broadcast.
    rewrite !length_fmap, !Partition.train_rows_take, !length_take. lia.
  - intros data_x data_y predictions.
    unfold Visualizer.linreg_figure, Visualizer.plot. cbn zeta.
    rewrite !Visualizer.tolist_reshape.
    eexists _, _, _. split; [reflexivity|]. by split_and!.
Qed.

(** C9 amended, on the three rows above. *)
Lemma trace_contents_witness :
  ∃ trace0 trace1 trace2,
    Visualizer.figure (λ row, default 0%float (head row)) 1 2 1
      [[1]; [2]; [4]]%float [10; 20; 40]%float ["Ag"; "Al"; "Au"]
    = [trace0; trace1; trace2]
    ∧ Visualizer.points trace0
      = zip (Partition.train_rows 2 [10; 20; 40]%float)
            ((λ row, default 0%float (head row))
             <$> Normalizer.train_values
                   (Normalizer.normalize 1 2 1 [[1]; [2]; [4]]%float))
        ++ zip (Partition.test_rows 1 [10; 20; 40]%float)
               ((λ row, default 0%float (head row))
                <$> Normalizer.test_values
                      (Normalizer.normalize 1 2 1 [[1]; [2]; [4]]%float)).
Proof.
  destruct (proj1 (trace_contents (A := float) 2 1)
              (λ row, default 0%float (head row)) 1
              [[1]; [2]; [4]]%float [10; 20; 40]%float ["Ag"; "Al"; "Au"]
              eq_refl)
    as (trace0 & trace1 & trace2 & Hfig & _ & _ & _ & _ & _ & _ & _ & Hall).
  exists trace0, trace1, trace2.
  exact (conj Hfig (Hall (Nat.lt_0_succ 0) eq_refl)).
Defined.

(** ** Model Trainer *)



(** * Further properties *)

Import Builder.

(** ** Partitioner *)

(** X1: for any two counts and any number of rows, the training partition
    has [min training_count row_count] rows; the testing partition has
    [min testing_count row_count] rows, except for a testing count of zero,
    where it is the whole table. *)
Theorem partition_sizes_clamped {A} (rows : list A)
    (training_count testing_count : nat) :
  length (Partition.train_rows training_count rows)
  = training_count `min` length rows
  ∧ length (Partition.test_rows testing_count rows)
    = match testing_count with
      | 0 => length rows
      | _ => testing_count `min` length rows
      end.
Proof.
  rewrite Partition.train_rows_take, Rows.test_rows_drop_min.
  rewrite length_take, length_drop. destruct testing_count; lia.
Qed.

(** X2: for a testing count of at least one, row [i] is a training row
    exactly when [i < training_count] (and it is a row), and a testing row
    exactly when it is one of the last [testing_count] rows.  So the rows
    between the two partitions are in neither; when the counts add up to
    the number of rows or more, every row is in one of them; and a row
    below [training_count] among the last [testing_count] is in both. *)
Theorem partition_membership (training_count testing_count row_count i : nat) :
  0 < testing_count →
  ((i ∈ Partition.train_index training_count row_count)
   ↔ (i < training_count ∧ i < row_count))
  ∧ ((i ∈ Partition.test_index testing_count row_count)
     ↔ (row_count - testing_count ≤ i ∧ i < row_count))
  ∧ (training_count ≤ i → i < row_count - testing_count →
     (i ∉ Partition.train_index training_count row_count)
     ∧ (i ∉ Partition.test_index testing_count row_count))
  ∧ (row_count ≤ training_count + testing_count → i < row_count →
     i ∈ Partition.train_index training_count row_count
     ∨ i ∈ Partition.test_index testing_count row_count)
  ∧ (row_count - testing_count ≤ i → i < training_count → i < row_count →
     i ∈ Partition.train_index training_count row_count
     ∧ i ∈ Partition.test_index testing_count row_count).
Proof.
  intros Hk.
  rewrite Rows.elem_of_train_index_iff, Rows.elem_of_test_index_iff by done.
  split_and!; try done; lia.
Qed.

(** X2, on 51 rows with 44 training and 5 testing rows: row 44 is in
    neither partition. *)
Lemma partition_membership_witness :
  (44 ∉ Partition.train_index 44 51) ∧ (44 ∉ Partition.test_index 5 51).
Proof.
  refine (proj1 (proj2 (proj2
    (partition_membership 44 5 51 44 (Nat.lt_0_succ 4)))) _ _); lia.
Defined.

(** ** Normalizer *)

(** X3: on a table whose rows all have [ncols] cells, normalisation (of
    either notebook) keeps the shape: one mean and one deviation per
    column, as many scaled rows as each partition has rows, and [ncols]
    cells in every scaled row. *)
Theorem normalize_shape {A} `{Np.Dtype A} (nb : Normalizer.notebook)
    (ncols training_count testing_count : nat) (all_values : list (list A)) :
  Forall (λ row : list A, length row = ncols) all_values →
  let s := Normalizer.run nb ncols training_count testing_count all_values in
  length (Normalizer.mean s) = ncols
  ∧ length (Normalizer.std s) = ncols
  ∧ length (Normalizer.train_values s)
    = length (Partition.train_rows training_count all_values)
  ∧ length (Normalizer.test_values s)
    = length (Partition.test_rows testing_count all_values)
  ∧ Forall (λ row : list A, length row = ncols) (Normalizer.train_values s)
  ∧ Forall (λ row : list A, length row = ncols) (Normalizer.test_values s).
Proof.
  intros Hrows. cbn zeta. rewrite Normalizer.run_standard_score.
  unfold Normalizer.standard_score.
  cbn [Normalizer.mean Normalizer.std Normalizer.train_values
       Normalizer.test_values].
  rewrite !Scaling.length_broadcast, !Np.length_axis0.
  split_and!; try done.
  - do 2 (apply Scaling.broadcast_widths; [apply Np.length_axis0|]).
    rewrite Partition.train_rows_take. by apply Forall_take.
  - do 2 (apply Scaling.broadcast_widths; [apply Np.length_axis0|]).
    unfold Partition.test_rows, Py.slice_from. by apply Forall_drop.
Qed.

(** X3, on three rows of two columns. *)
Lemma normalize_shape_witness :
  Forall (λ row : list float, length row = 2)
    (Normalizer.train_values
       (Normalizer.run Normalizer.NeuralRegression 2 2 1
          [[1; 10]; [3; 30]; [5; 20]]%float)).
Proof.
  assert (Forall (λ row : list float, length row = 2)
            [[1; 10]; [3; 30]; [5; 20]]%float) as Hrows
    by (repeat constructor).
  exact (proj1 (proj2 (proj2 (proj2 (proj2
    (normalize_shape Normalizer.NeuralRegression 2 2 1
       [[1; 10]; [3; 30]; [5; 20]]%float Hrows)))))).
Defined.

(** X4: a cell that holds the missing-value marker NaN before
    normalisation holds NaN after it, in the training and in the testing
    features of both notebooks ([np.nanmean] and [np.nanstd] keep NaN out
    of the statistics, not out of the scaled cells). *)
Theorem missing_value_stays_missing (nb : Normalizer.notebook)
    (ncols training_count testing_count : nat)
    (all_values : list (list float)) (i j : nat) (row : list float) :
  let s := Normalizer.run nb ncols training_count testing_count all_values in
  j < ncols → row !! j = Some nan →
  (Partition.train_rows training_count all_values !! i = Some row →
   ∃ row', Normalizer.train_values s !! i = Some row' ∧ row' !! j = Some nan)
  ∧ (Partition.test_rows testing_count all_values !! i = Some row →
     ∃ row', Normalizer.test_values s !! i = Some row' ∧ row' !! j = Some nan).
Proof.
  cbn zeta. rewrite Normalizer.run_standard_score.
  unfold Normalizer.standard_score.
  cbn [Normalizer.train_values Normalizer.test_values].
  intros Hj Hcell. split; intros Hrow;
    destruct (Scaling.scaled_axis0_cell (Normalizer.column_mean nb)
                (Normalizer.column_std nb) ncols
                (Partition.train_rows training_count all_values) _ i j row nan
                Hrow Hcell Hj)
      as (row' & Hrow' & Hy);
    exists row'; (split; [done|]); rewrite Hy; f_equal;
    cbn [Np.sub Np.div Np.float64]; by rewrite NaN.sub_nan_l, NaN.div_nan_l.
Qed.

(** X4, in the classification notebook, on a training column [1; NaN]. *)
Lemma missing_value_stays_missing_witness :
  ∃ row',
    Normalizer.train_values
      (Normalizer.run Normalizer.Classifier 1 2 1 [[1]; [nan]; [3]]%float) !! 1
    = Some row'
    ∧ row' !! 0 = Some nan.
Proof.
  exact (proj1 (missing_value_stays_missing Normalizer.Classifier 1 2 1
                  [[1]; [nan]; [3]]%float 1 0 [nan] (Nat.lt_0_succ 0) eq_refl)
           eq_refl).
Defined.

(** X5: in the regression notebook ([np.mean], [np.std]) one NaN in a
    column of the training rows makes the mean of that column NaN, and with
    it every cell of that column in the scaled training and testing
    features. *)
Theorem missing_value_poisons_column (ncols training_count testing_count : nat)
    (all_values : list (list float)) (i j : nat) (row : list float) (y : float) :
  let s := Normalizer.normalize ncols training_count testing_count all_values in
  j < ncols →
  nan ∈ Np.column j (Partition.train_rows training_count all_values) →
  Normalizer.train_values s !! i = Some row
  ∨ Normalizer.test_values s !! i = Some row →
  row !! j = Some y →
  Normalizer.mean s !! j = Some nan ∧ y = nan.
Proof.
  cbn zeta. unfold Normalizer.normalize, Normalizer.standard_score.
  cbn [Normalizer.mean Normalizer.train_values Normalizer.test_values].
  intros Hj Hnan Hrow Hy.
  assert (Np.axis0 Np.mean ncols (Partition.train_rows training_count all_values)
          !! j = Some nan) as Hmean.
  { rewrite Np.lookup_axis0 by done. f_equal. by apply Scaling.mean_with_nan. }
  split; [done|].
  destruct Hrow as [Hrow|Hrow];
    destruct (Normalizer.scaled_cell_inv _ _ _ _ _ _ _ Hrow Hy)
      as (r & x & m & s & _ & _ & Hm & _ & ->);
    rewrite Hmean in Hm; injection Hm as <-;
    cbn [Np.sub Np.div Np.float64]; by rewrite NaN.sub_nan_r, NaN.div_nan_l.
Qed.

(** X5, on the training column [1; NaN] and the testing row [3]: the mean
    is NaN, and so is the scaled testing cell. *)
Lemma missing_value_poisons_column_witness :
  Normalizer.mean (Normalizer.normalize 1 2 1 [[1]; [nan]; [3]]%float) !! 0
  = Some nan
  ∧ Normalizer.test_values (Normalizer.normalize 1 2 1 [[1]; [nan]; [3]]%float)
    = [[nan]].
Proof.
  assert (nan ∈ Np.column 0 (Partition.train_rows 2 [[1]; [nan]; [3]]%float))
    as Hnan by (vm_compute; apply list_elem_of_further, list_elem_of_here).
  split; [|reflexivity].
  exact (proj1 (missing_value_poisons_column 1 2 1 [[1]; [nan]; [3]]%float
                  0 0 [nan] nan (Nat.lt_0_succ 0) Hnan
                  (or_intror eq_refl) eq_refl)).
Defined.

(** X6: on a table with at least one row, the statement
    [print(train_values[0])] that follows the scaling raises an
    [IndexError] exactly when the training count is zero.  With a training
    count of zero the scaling itself gives, in both notebooks, no scaled
    training row, NaN for every mean, and NaN in every cell of the scaled
    testing features. *)
Theorem empty_training_set_all_nan (nb : Normalizer.notebook)
    (ncols training_count testing_count : nat) (all_values : list (list float)) :
  all_values ≠ [] →
  let s := Normalizer.run nb ncols training_count testing_count all_values in
  (Scaling.sample_entry s = None ↔ training_count = 0)
  ∧ (training_count = 0 →
     Normalizer.train_values s = []
     ∧ Normalizer.mean s = replicate ncols nan
     ∧ ∀ i j row y, Normalizer.test_values s !! i = Some row →
         row !! j = Some y → y = nan).
Proof.
  intros Hrows. cbn zeta. rewrite Normalizer.run_standard_score.
  unfold Scaling.sample_entry, Normalizer.standard_score.
  cbn [Normalizer.mean Normalizer.train_values Normalizer.test_values].
  rewrite Partition.train_rows_take. split.
  - rewrite lookup_ge_None, !Scaling.length_broadcast, length_take.
    destruct all_values as [|row rows]; [done|]. simpl. lia.
  - intros ->. change (take 0 all_values) with ([] : list (list float)).
    assert (Np.axis0 (Normalizer.column_mean nb) ncols ([] : list (list float))
            = replicate ncols nan) as Hmean.
    { apply list_eq. intros c. destruct (decide (c < ncols)).
      - rewrite Np.lookup_axis0, lookup_replicate_2 by done. by destruct nb.
      - rewrite !lookup_ge_None_2; [done|rewrite length_replicate; lia|].
        rewrite Np.length_axis0. lia. }
    rewrite Hmean. split_and!; [done|done|].
    intros i j row y Hrow Hy.
    destruct (Normalizer.scaled_cell_inv _ _ _ _ _ _ _ Hrow Hy)
      as (r & x & m & s & _ & _ & Hm & _ & ->).
    apply lookup_replicate in Hm as [-> _].
    cbn [Np.sub Np.div Np.float64]. by rewrite NaN.sub_nan_r, NaN.div_nan_l.
Qed.

(** X6, on two rows of one column, the last of them testing. *)
Lemma empty_training_set_all_nan_witness :
  Scaling.sample_entry
    (Normalizer.run Normalizer.NeuralRegression 1 0 1 [[1]; [3]]%float)
  = None
  ∧ Normalizer.mean
      (Normalizer.run Normalizer.NeuralRegression 1 0 1 [[1]; [3]]%float)
    = [nan]
  ∧ Normalizer.test_values
      (Normalizer.run Normalizer.NeuralRegression 1 0 1 [[1]; [3]]%float)
    = [[nan]].
Proof.
  assert ([[1]; [3]]%float ≠ []) as Hrows by discriminate.
  destruct (empty_training_set_all_nan Normalizer.NeuralRegression 1 0 1
              [[1]; [3]]%float Hrows) as [Hprint Hscaled].
  destruct (Hscaled eq_refl) as (_ & Hmean & _).
  split_and!; [by apply Hprint|exact Hmean|reflexivity].
Defined.

(** ** Property Table Builder *)

(** X8: a block of patch statements raises (a [KeyError] of [get_loc] or
    of [df['atomic_number']]) exactly when it has at least one statement
    and the table has no column [atomic_number] or lacks the column that
    one of the statements names; an empty block never raises. *)
Theorem patch_block_fails_iff (ps : list patch) (df : DataFrame) :
  apply_patches ps df = None
  ↔ ps ≠ [] ∧ ("atomic_number" ∉ columns df
               ∨ ∃ p, p ∈ ps ∧ property p ∉ columns df).
Proof.
  revert df. induction ps as [|p ps IH]; intros df.
  - simpl. split; [done|]. by intros [? _].
  - cbn [apply_patches].
    destruct (patch_value p df) as [df1|] eqn:Hp.
    + apply Frame.patch_value_Some in Hp as (a & j & Ha & Hj & ->).
      simpl. rewrite IH. cbn [columns].
      apply Pandas.get_loc_Some in Ha as Ha'.
      apply Pandas.get_loc_Some in Hj as Hj'.
      split.
      * intros (Hne & [Hat|(q & Hq & Hprop)]).
        -- split; [done|]. by left.
        -- split; [done|]. right. exists q. split; [|done].
           apply elem_of_cons. by right.
      * intros (_ & [Hat|(q & Hq & Hprop)]).
        -- exfalso. apply Hat. by eapply list_elem_of_lookup_2.
        -- apply elem_of_cons in Hq as [->|Hq].
           ++ exfalso. apply Hprop. by eapply list_elem_of_lookup_2.
           ++ split; [by intros ->; apply elem_of_nil in Hq|].
              right. by exists q.
    + simpl. split; [|done]. intros _. split; [done|].
      apply Frame.patch_value_None in Hp as [Hat|Hprop]; [by left|].
      right. exists p. split; [apply list_elem_of_here|done].
Qed.

(** X9: a block of patch statements none of which writes the column
    [atomic_number], when it runs, keeps the columns, the number of rows,
    the length of every row and every atomic number; and in every row, a
    column keeps its value unless a statement names that column and the
    atomic number of that row. *)
Theorem patches_touch_only_their_cells (ps : list patch) (df df' : DataFrame)
    (a : nat) :
  get_loc "atomic_number" (columns df) = Some a →
  Forall (λ p, property p ≠ "atomic_number") ps →
  apply_patches ps df = Some df' →
  columns df' = columns df
  ∧ length (values df') = length (values df)
  ∧ ∀ i row, values df !! i = Some row →
      ∃ row', values df' !! i = Some row'
        ∧ length row' = length row
        ∧ row' !! a = row !! a
        ∧ ∀ name,
            (∀ p, p ∈ ps → property p = name →
                  has_atomic_number a (atomic_number p) row = false) →
            cell df' i name = cell df i name.
Proof.
  revert df. induction ps as [|p ps IH]; intros df Ha Hnot Hrun.
  - injection Hrun as <-. split_and!; try done.
    intros i row Hrow. exists row. by split_and!.
  - cbn [apply_patches] in Hrun.
    destruct (patch_value p df) as [df1|] eqn:Hp; [|done]. simpl in Hrun.
    apply Frame.patch_value_Some in Hp as (a' & j & Ha' & Hj & ->).
    rewrite Ha in Ha'. injection Ha' as <-.
    apply Forall_cons in Hnot as [Hp Hnot].
    assert (j ≠ a) as Hja.
    { intros ->. apply Hp. by eapply Pandas.get_loc_inj. }
    destruct (IH {| columns := columns df;
                    values := set_cell a j (atomic_number p) (value p)
                              <$> values df |} Ha Hnot Hrun)
      as (Hcols & Hlen & Hcells).
    cbn [columns values] in *. rewrite length_fmap in Hlen.
    split_and!; try done.
    intros i row Hrow.
    destruct (Hcells i (set_cell a j (atomic_number p) (value p) row))
      as (row' & Hrow' & Hlen' & Hat & Hframe).
    { by rewrite list_lookup_fmap, Hrow. }
    exists row'. split_and!; try done.
    + by rewrite Hlen', length_set_cell.
    + by rewrite Hat, Frame.set_cell_lookup_ne.
    + intros name Hname. rewrite Hframe.
      * unfold cell. cbn [columns values].
        destruct (get_loc name (columns df)) as [c|] eqn:Hc; [|done]. simpl.
        rewrite list_lookup_fmap, Hrow. simpl.
        destruct (decide (c = j)) as [->|Hcj].
        -- rewrite Frame.set_cell_unmatched; [done|].
           apply (Hname p); [apply list_elem_of_here|].
           by eapply Pandas.get_loc_inj.
        -- by apply Frame.set_cell_lookup_ne.
      * intros q Hq Hqn. rewrite has_atomic_number_set_cell by done.
        apply Hname; [|done]. by apply list_elem_of_further.
Qed.

(** X9, on the regression notebook's patches and a table of silver and
    caesium. *)
Lemma patches_touch_only_their_cells_witness :
  ∃ df',
    YoungsModulus.build Examples.mendel Examples.pymat ["Ag"; "Cs"] = Some df'
    ∧ columns df' = YoungsModulus.querable_values
    ∧ length (values df') = 2.
Proof.
  assert (Forall (λ p, property p ≠ "atomic_number")
                 YoungsModulus.manual_patches) as Hnot
    by (repeat constructor; discriminate).
  eexists. split; [apply YoungsModulus.build_total|].
  destruct (patches_touch_only_their_cells YoungsModulus.manual_patches
              (YoungsModulus.queried Examples.mendel Examples.pymat ["Ag"; "Cs"])
              _ 0 YoungsModulus.atomic_number_loc Hnot
              (YoungsModulus.build_total Examples.mendel Examples.pymat
                 ["Ag"; "Cs"]))
    as (Hcols & Hlen & _).
  exact (conj Hcols Hlen).
Defined.

(** X10: running the patch block of either notebook a second time, on the
    table it has built, changes nothing. *)
Theorem patch_block_idempotent (mendel pymat : database) (elements : list string) :
  (YoungsModulus.build mendel pymat elements
   ≫= apply_patches YoungsModulus.manual_patches)
  = YoungsModulus.build mendel pymat elements
  ∧ (Classification.build mendel pymat elements
     ≫= apply_patches Classification.manual_patches)
    = Classification.build mendel pymat elements.
Proof.
  split.
  - rewrite YoungsModulus.build_total. cbn [mbind option_bind].
    rewrite (apply_patches_total YoungsModulus.querable_values 0
               YoungsModulus.manual_patches YoungsModulus.located_patches
               YoungsModulus.atomic_number_loc
               YoungsModulus.manual_patches_located).
    f_equal. f_equal. rewrite <- list_fmap_compose. apply list_fmap_ext.
    intros i row _. apply Frame.patch_row_idemp,
      YoungsModulus.manual_patches_consistent.
  - rewrite Classification.clf_build_total. cbn [mbind option_bind].
    rewrite (apply_patches_total Classification.querable_values 0
               Classification.manual_patches Classification.located_patches
               Classification.clf_atomic_number_loc
               Classification.clf_manual_patches_located).
    f_equal. f_equal. rewrite <- list_fmap_compose. apply list_fmap_ext.
    intros i row _. apply Frame.patch_row_idemp,
      Classification.clf_manual_patches_consistent.
Qed.

(** X11: in the regression notebook, for any databases and elements, the
    cell that stores the labels apart succeeds.  The labels are the column
    [youngs_modulus] of the patched table, one per element and in the order
    of the rows (so the label of germanium is the patched [102.7]); the
    features are the other 16 columns, unchanged, one row of 16 cells per
    element; and the feature table has no column [youngs_modulus]. *)
Theorem labels_split_from_features (mendel pymat : database)
    (elements : list string) :
  ∃ df d,
    YoungsModulus.build mendel pymat elements = Some df
    ∧ Dataset.split_labels mendel pymat elements = Some d
    ∧ columns (Dataset.frame d) = Dataset.feature_columns
    ∧ length Dataset.feature_columns = 16
    ∧ Dataset.all_values d = values (Dataset.frame d)
    ∧ length (Dataset.all_values d) = length elements
    ∧ length (Dataset.all_labels d) = length elements
    ∧ Forall (λ row : list float, length row = 16) (Dataset.all_values d)
    ∧ (∀ i, i < length elements →
         Dataset.all_labels d !! i = cell df i "youngs_modulus")
    ∧ (∀ i item z, elements !! i = Some item →
         mendel item "atomic_number" = Some z → (z =? 32)%float = true →
         Dataset.all_labels d !! i = Some 102.7%float)
    ∧ (∀ i name, name ≠ "youngs_modulus" →
         cell (Dataset.frame d) i name = cell df i name)
    ∧ (∀ i, cell (Dataset.frame d) i "youngs_modulus" = None).
Proof.
  pose proof (Dataset.patched_rows_length mendel pymat elements) as Hrows.
  pose proof (Dataset.patched_rows_count mendel pymat elements) as Hcount.
  set (rows := patch_row 0 YoungsModulus.located_patches
               <$> values (YoungsModulus.queried mendel pymat elements)) in *.
  destruct (Pandas.tolist_Some "youngs_modulus" YoungsModulus.querable_values
              rows 13 eq_refl Hrows) as (col & Hcol & Hlen & Hcells).
  eexists _, _. split; [apply YoungsModulus.build_total|].
  fold rows. unfold Dataset.split_labels.
  rewrite YoungsModulus.build_total. fold rows. cbn [mbind option_bind].
  rewrite Hcol. cbn [mbind option_bind].
  rewrite Pandas.drop_Some
    by (apply (bool_decide_unpack _); by vm_compute).
  cbn [mbind option_bind columns values].
  replace (length (query mendel pymat YoungsModulus.querable_mendeleev
                     YoungsModulus.querable_pymatgen elements))
    with (length (Pandas.drop_cells "youngs_modulus"
                    YoungsModulus.querable_values <$> rows))
    by (unfold query; by rewrite !length_fmap, Hcount).
  rewrite Pandas.iloc_rows_all. cbn [mbind option_bind].
  split; [reflexivity|].
  cbn [Dataset.frame Dataset.all_values Dataset.all_labels columns values].
  split_and!; [done|done|done| | | | | | |apply Pandas.cell_dropped].
  - by rewrite length_fmap.
  - by rewrite Hlen.
  - apply Forall_fmap. eapply Forall_impl; [exact Hrows|].
    intros row Hrow. unfold compose. by rewrite Pandas.length_drop_cells.
  - intros i Hi. apply Hcells. by rewrite Hcount.
  - intros i item z Hitem Hz Heq. rewrite Hcells.
    + pose proof (YoungsModulus.queried_row mendel pymat elements i item Hitem)
        as Hrow.
      pose proof (YoungsModulus.queried_rows_length mendel pymat elements) as Hl.
      rewrite Forall_lookup in Hl.
      apply (patched_cell YoungsModulus.querable_values 0
               YoungsModulus.manual_patches YoungsModulus.located_patches
               YoungsModulus.manual_patches_located
               YoungsModulus.manual_patches_consistent _
               (Patch 32 "youngs_modulus" 102.7) i _
               ltac:(do 5 apply list_elem_of_further; apply list_elem_of_here)
               Hrow (Hl i _ Hrow)).
      unfold has_atomic_number, element_values.
      cbn [YoungsModulus.querable_mendeleev app fmap list_fmap lookup
           list_lookup atomic_number].
      by rewrite Hz.
    + rewrite Hcount. by eapply lookup_lt_Some.
  - intros i name Hname. by apply Pandas.cell_drop.
Qed.

(** ** Result Visualizer *)

(** X12: in the figure of the regression notebook, with one element name
    per row, the hover names of the trace named training are the names of
    all elements, and those of the trace named testing are the names of the
    last [testing_count] elements ([labeled_elements]).  The [i]-th point
    of the testing trace belongs to one row [r] of the table: its hover
    name is the element of row [r], its abscissa the label of row [r], and
    its ordinate the prediction for the scaled features of row [r]. *)
Theorem hover_names_aligned {A} `{Np.Dtype A} (predict_row : list A → A)
    (ncols training_count testing_count : nat) (all_values : list (list A))
    (all_labels : list A) (elements : list string) :
  length elements = length all_labels →
  length all_values = length all_labels →
  let s := Normalizer.normalize ncols training_count testing_count all_values in
  ∃ trace0 trace1 trace2,
    Visualizer.figure predict_row ncols training_count testing_count
      all_values all_labels elements = [trace0; trace1; trace2]
    ∧ Visualizer.text trace0 = elements
    ∧ Visualizer.x trace0 = all_labels
    ∧ Visualizer.text trace1 = Partition.test_rows testing_count elements
    ∧ length (Visualizer.x trace1) = length (Visualizer.text trace1)
    ∧ length (Visualizer.y trace1) = length (Visualizer.text trace1)
    ∧ ∀ i item, Visualizer.text trace1 !! i = Some item →
        ∃ r label row,
          elements !! r = Some item
          ∧ all_labels !! r = Some label
          ∧ all_values !! r = Some row
          ∧ Visualizer.x trace1 !! i = Some label
          ∧ Visualizer.y trace1 !! i
            = Some (predict_row
                      (zip_with Np.div (zip_with Np.sub row (Normalizer.mean s))
                                (Normalizer.std s))).
Proof.
  intros Hel Hval. cbn zeta.
  unfold Visualizer.figure, Visualizer.traces. cbn zeta.
  rewrite (Rows.pick_test_rows_of elements) by done.
  rewrite (Rows.pick_range_of elements), (Rows.pick_range_of all_values),
    (Rows.pick_range_of all_labels) by done.
  eexists _, _, _. split; [reflexivity|].
  cbn [Visualizer.text Visualizer.x Visualizer.y].
  unfold Normalizer.normalize, Normalizer.standard_score.
  cbn [Normalizer.test_values Normalizer.mean Normalizer.std].
  split_and!; try done.
  - unfold Partition.test_rows, Py.slice_from. by rewrite !length_drop, Hel.
  - unfold Np.broadcast. rewrite !length_fmap.
    unfold Partition.test_rows, Py.slice_from.
    by rewrite !length_drop, Hel, Hval.
  - intros i item Hi. rewrite Rows.lookup_test_rows in Hi.
    set (r := Rows.test_start testing_count (length elements) + i) in *.
    destruct (lookup_lt_is_Some_2 all_labels r) as [label Hlabel].
    { apply lookup_lt_Some in Hi. lia. }
    destruct (lookup_lt_is_Some_2 all_values r) as [row Hrow].
    { apply lookup_lt_Some in Hi. lia. }
    exists r, label, row. split_and!; try done.
    + rewrite Rows.lookup_test_rows, <- Hel. exact Hlabel.
    + unfold Np.broadcast.
      rewrite !list_lookup_fmap, Rows.lookup_test_rows, Hval, <- Hel.
      fold r. by rewrite Hrow.
Qed.

(** X12, on three rows, the last of them testing. *)
Lemma hover_names_aligned_witness :
  ∃ trace0 trace1 trace2,
    Visualizer.figure (λ row, default 0%float (head row)) 1 2 1
      [[1]; [2]; [4]]%float [10; 20; 40]%float ["Ag"; "Al"; "Au"]
    = [trace0; trace1; trace2]
    ∧ Visualizer.text trace1 = ["Au"]
    ∧ Visualizer.x trace1 = [40%float].
Proof.
  destruct (hover_names_aligned (A := float) (λ row, default 0%float (head row))
              1 2 1 [[1]; [2]; [4]]%float [10; 20; 40]%float ["Ag"; "Al"; "Au"]
              eq_refl eq_refl)
    as (trace0 & trace1 & trace2 & Hfig & _ & _ & Htext & _).
  exists trace0, trace1, trace2. split; [exact Hfig|].
  injection Hfig as _ <- _. split; reflexivity.
Defined.

(** X13: in the linear-regression notebook the query loop gives each of the
    six lists one entry per element, in the order of the elements.  So in
    each of the three plots (Young's modulus, lattice constant and thermal
    expansion against the melting point) every point of the trace named
    training pairs the two properties of one and the same element, one
    point per element of the first [training_count] elements, and every
    point of the trace named testing does so for the last
    [testing_count]. *)
Theorem linreg_points_by_element (mendel pymat : database)
    (elements : list string) (training_count testing_count : nat)
    (predictions : list (list (option float))) :
  let d := Linreg.query mendel pymat elements in
  let melt e := mendel e "melting_point" in
  let shown (data_y : list (option float)) (prop : string → option float) :=
    ∃ training actual prediction,
      Visualizer.linreg_figure training_count testing_count
        (Linreg.data_melting_point d) data_y predictions
      = [training; actual; prediction]
      ∧ Visualizer.points training
        = (λ e, (melt e, prop e)) <$> Partition.train_rows training_count elements
      ∧ Visualizer.points actual
        = (λ e, (melt e, prop e)) <$> Partition.test_rows testing_count elements in
  shown (Linreg.data_youngs_modulus d) (λ e, pymat e "youngs_modulus")
  ∧ shown (Linreg.data_lattice_constant d) (λ e, mendel e "lattice_constant")
  ∧ shown (Linreg.data_CTE d)
          (λ e, pymat e "coefficient_of_linear_thermal_expansion")
  ∧ Linreg.data_specific_heat d = (λ e, mendel e "specific_heat") <$> elements
  ∧ Linreg.data_atomic_mass d = (λ e, pymat e "atomic_mass") <$> elements.
Proof.
  cbn zeta. unfold Linreg.query. rewrite Linreg.linreg_foldl_iteration.
  cbn [Linreg.data_youngs_modulus Linreg.data_lattice_constant
       Linreg.data_melting_point Linreg.data_specific_heat
       Linreg.data_atomic_mass Linreg.data_CTE app].
  split_and!; try done;
    unfold Visualizer.linreg_figure, Visualizer.plot; cbn zeta;
    rewrite !Visualizer.tolist_reshape;
    (eexists _, _, _; split; [reflexivity|]);
    unfold Visualizer.points; cbn [Visualizer.x Visualizer.y];
    rewrite !Rows.train_rows_fmap, !Rows.test_rows_fmap;
    split; by rewrite zip_with_fmap_l, zip_with_fmap_r, zip_with_diag.
Qed.

(** ** Predicted crystal structures *)

(** X14: in the classification notebook, when every element is in one of
    the three declared lists, the two partitions make up the table and the
    network returns three scores per row, the table of structures is built
    without error and has one row per element, in the order of the
    elements.  Row [i] holds the atomic number of row [i] of the patched
    table, the name of the declared list of element [i] as true structure,
    and as predicted structure the name of the class with the highest
    score for the scaled features of row [i]. *)
Theorem crystal_table_rows (mendel pymat : database) (elements : list string)
    (training_count testing_count : nat) (predict_row : list float → list float) :
  Forall (λ item, item ∈ Classification.declared_elements) elements →
  0 < testing_count →
  training_count + testing_count = length elements →
  (∀ row, length (predict_row row) = 3) →
  ∃ df table,
    Classification.build mendel pymat elements = Some df
    ∧ Structures.plot_table mendel pymat elements training_count testing_count
        predict_row = Some table
    ∧ length table = length elements
    ∧ ∀ i item, elements !! i = Some item →
        let s := Normalizer.normalize_nan (length Classification.querable_values)
                   training_count testing_count (values df) in
        ∃ z true_structure predicted_structure scaled_row,
          table !! i = Some (z, true_structure, predicted_structure)
          ∧ cell df i "atomic_number" = Some z
          ∧ (true_structure = "FCC" ↔ item ∈ Classification.fcc_elements)
          ∧ (true_structure = "BCC" ↔ item ∈ Classification.bcc_elements)
          ∧ (true_structure = "HCP" ↔ item ∈ Classification.hcp_elements)
          ∧ (Normalizer.train_values s ++ Normalizer.test_values s) !! i
            = Some scaled_row
          ∧ (Structures.argmax_scores (predict_row scaled_row)
             ≫= Structures.structure_name) = Some predicted_structure
          ∧ predicted_structure ∈ ["FCC"; "BCC"; "HCP"].
Proof.
  intros Hdecl Hk Hn Hpred.
  pose proof (Structures.clf_patched_rows_length mendel pymat elements) as Hrows.
  pose proof (Structures.clf_patched_rows_count mendel pymat elements) as Hcount.
  set (rows := patch_row 0 Classification.located_patches
               <$> values (Classification.queried mendel pymat elements)) in *.
  pose proof (Classification.omap_label_of elements Hdecl) as Hlabels.
  set (labels := omap Classification.label_of elements) in *.
  assert (length labels = length elements) as Hlablen.
  { symmetry. by eapply Forall2_length. }
  destruct (Structures.first_column rows _ (Nat.lt_0_succ 17) Hrows)
    as (col & Hcol & Hcollen & Hcolcell).
  eexists _, _. split; [apply Classification.clf_build_total|]. fold rows.
  unfold Structures.plot_table.
  rewrite Classification.query_loop_spec, Classification.clf_build_total.
  fold rows labels. cbn [mbind option_bind].
  replace (length (query mendel pymat Classification.querable_mendeleev
                     Classification.querable_pymatgen elements))
    with (length rows) by (unfold query; by rewrite length_fmap, Hcount).
  rewrite Pandas.iloc_rows_all. cbn [mbind option_bind values].
  rewrite (Visualizer.figure_rows labels training_count testing_count)
    by (done || lia).
  set (s := Normalizer.normalize_nan _ _ _ rows).
  set (preds := (predict_row <$> Normalizer.train_values s)
                ++ (predict_row <$> Normalizer.test_values s)).
  assert (length preds = length elements) as Hpredlen.
  { subst preds s. rewrite length_app, !length_fmap.
    unfold Normalizer.normalize_nan, Normalizer.standard_score.
    cbn [Normalizer.train_values Normalizer.test_values].
    rewrite !Scaling.length_broadcast.
    rewrite Partition.train_rows_take, Partition.test_rows_drop by done.
    rewrite length_take, length_drop. lia. }
  assert (Forall (λ scores : list float, length scores = 3) preds) as Hpreds.
  { subst preds. apply Forall_app. split; apply Forall_fmap, Forall_true;
      intros row; apply Hpred. }
  unfold Py.range.
  rewrite (Structures.label_loop_take preds labels elements (length preds)
             Hpreds Hlabels) by lia.
  cbn [mbind option_bind]. rewrite Hcol. cbn [mbind option_bind].
  rewrite !take_ge by lia.
  rewrite Structures.concatenate_Some by (rewrite !length_fmap; lia).
  split; [reflexivity|]. fold s. fold preds. split.
  { rewrite !length_zip_with, !length_fmap. lia. }
  intros i item Hitem. cbn zeta. fold s.
  destruct (Forall2_lookup_l _ _ _ _ _ Hlabels Hitem) as (lab & Hlab & Hlabel).
  destruct (lookup_lt_is_Some_2 preds i) as [scores Hscores].
  { apply lookup_lt_Some in Hitem. lia. }
  destruct (lookup_lt_is_Some_2 rows i) as [row Hrow].
  { apply lookup_lt_Some in Hitem. lia. }
  destruct (lookup_lt_is_Some_2 row 0) as [z Hz].
  { rewrite Forall_lookup in Hrows. rewrite (Hrows i row Hrow). simpl. lia. }
  assert (∃ scaled_row,
            (Normalizer.train_values s ++ Normalizer.test_values s) !! i
            = Some scaled_row ∧ scores = predict_row scaled_row)
    as (scaled_row & Hscaled & ->).
  { subst preds. rewrite <- fmap_app, list_lookup_fmap in Hscores.
    destruct ((Normalizer.train_values s ++ Normalizer.test_values s) !! i)
      as [scaled_row|]; [|done].
    injection Hscores as <-. by exists scaled_row. }
  rewrite Forall_lookup in Hpreds.
  destruct (Structures.predicted_name_Some _ (Hpreds i _ Hscores))
    as (c & Hc & Hname & Hin).
  destruct (Structures.true_name_label item lab Hlabel)
    as (c' & _ & _ & Hf & Hb & Hh).
  destruct Classification.declared_disjoint as (H12 & H13 & H23).
  exists z, (Structures.true_name lab),
    (Structures.predicted_name (predict_row scaled_row)), scaled_row.
  split_and!; [| |done| | |done| |done].
  - rewrite !lookup_zip_with, !list_lookup_fmap.
    rewrite (Hcolcell i row Hrow), Hz, Hlab, Hscores. done.
  - unfold cell. cbn [columns values]. rewrite Classification.clf_atomic_number_loc.
    simpl. by rewrite Hrow.
  - rewrite Hb. split; [by intros [_ ?]|]. intros Hbcc. split; [|done].
    intros Hfcc. by apply (H12 item).
  - rewrite Hh. split; [by intros (_ & _ & ?)|]. intros Hhcp.
    split_and!; [| |done].
    + intros Hfcc. by apply (H13 item).
    + intros Hbcc. by apply (H23 item).
  - rewrite Hc. simpl. exact Hname.
Qed.

(** X14, on silver, barium and beryllium, the last of them testing, and a
    network that returns the same three scores for every row. *)
Lemma crystal_table_rows_witness :
  ∃ table,
    Structures.plot_table Examples.mendel Examples.pymat ["Ag"; "Ba"; "Be"] 2 1
      (λ _, [0.2; 0.5; 0.3]%float) = Some table
    ∧ length table = 3.
Proof.
  assert (Forall (λ item, item ∈ Classification.declared_elements)
                 ["Ag"; "Ba"; "Be"]) as Hdecl
    by (apply (bool_decide_unpack _); by vm_compute).
  destruct (crystal_table_rows Examples.mendel Examples.pymat ["Ag"; "Ba"; "Be"]
              2 1 (λ _, [0.2; 0.5; 0.3]%float) Hdecl (Nat.lt_0_succ 0) eq_refl
              (λ _, eq_refl))
    as (df & table & _ & Htable & Hlen & _).
  exists table. exact (conj Htable Hlen).
Defined.

(** X15: in the bar chart of the classification notebook, with one row of
    three scores per element and no element listed twice, the nine traces
    are built without error.  The trace of a list of elements and a class
    has one bar per element of that list, in the order of the elements, and
    the height of the bar of an element is the score of that class in the
    element's own row of predictions; the trace of a list's own class is
    green, the others red; and on the own-class trace the bar of an element
    carries the mark ['*'] exactly when the element is one of the last
    [testing_count] elements. *)
Theorem bars_paired_by_element (testing_count : nat) (elements : list string)
    (all_predictions : list (list float)) :
  length all_predictions = length elements →
  Forall (λ scores : list float, length scores = 3) all_predictions →
  NoDup elements →
  0 < testing_count →
  ∃ FCC_prediction BCC_prediction HCP_prediction fig,
    BarChart.class_predictions all_predictions
    = Some (FCC_prediction, BCC_prediction, HCP_prediction)
    ∧ (∀ i scores, all_predictions !! i = Some scores →
         FCC_prediction !! i = scores !! 0 ∧ BCC_prediction !! i = scores !! 1
         ∧ HCP_prediction !! i = scores !! 2)
    ∧ BarChart.figure testing_count elements all_predictions = Some fig
    ∧ Forall2 (λ b '(group, prediction, name, row, own),
         BarChart.name b = name ∧ BarChart.row b = row
         ∧ (BarChart.color b = if own : bool then "green" else "red")
         ∧ BarChart.x b = filter (λ e, e ∈ group) elements
         ∧ BarChart.bars b
           = filter (λ ep : string * float, ep.1 ∈ group) (zip elements prediction)
         ∧ (if own then
              length (BarChart.text b) = length (BarChart.x b)
              ∧ ∀ j i e, BarChart.x b !! j = Some e → elements !! i = Some e →
                  (BarChart.text b !! j = Some (Some "*")
                   ↔ length elements - testing_count ≤ i)
            else BarChart.text b = []))
       fig
       [ (Classification.fcc_elements, FCC_prediction, "FCC", 1, true);
         (Classification.fcc_elements, BCC_prediction, "BCC", 1, false);
         (Classification.fcc_elements, HCP_prediction, "HCP", 1, false);
         (Classification.bcc_elements, FCC_prediction, "FCC", 2, false);
         (Classification.bcc_elements, BCC_prediction, "BCC", 2, true);
         (Classification.bcc_elements, HCP_prediction, "HCP", 2, false);
         (Classification.hcp_elements, FCC_prediction, "FCC", 3, false);
         (Classification.hcp_elements, BCC_prediction, "BCC", 3, false);
         (Classification.hcp_elements, HCP_prediction, "HCP", 3, true) ].
Proof.
  intros Hlen Hscores Hnodup Hk.
  assert (∀ c, length (BarChart.score c <$> all_predictions) = length elements)
    as Hcol by (intros c; by rewrite length_fmap).
  assert (∀ group (b : BarChart.Bar),
            BarChart.x b = BarChart.bar_x group elements →
            BarChart.text b
            = BarChart.stars testing_count elements (BarChart.bar_x group elements) →
            length (BarChart.text b) = length (BarChart.x b)
            ∧ ∀ j i e, BarChart.x b !! j = Some e → elements !! i = Some e →
                (BarChart.text b !! j = Some (Some "*")
                 ↔ length elements - testing_count ≤ i)) as Hstars.
  { intros group b Hx Htext. rewrite Htext, Hx. unfold BarChart.stars.
    split; [by rewrite length_fmap|]. intros j i e Hj Hi.
    rewrite list_lookup_fmap, Hj. simpl. case_bool_decide as Hin.
    - split; [|done]. intros _.
      apply Rows.elem_of_test_rows in Hin as (i' & Hi' & Hle); [|done].
      by rewrite (NoDup_lookup _ _ _ _ Hnodup Hi Hi').
    - split; [done|]. intros Hle. exfalso. apply Hin.
      apply Rows.elem_of_test_rows; [done|]. by exists i. }
  destruct (BarChart.bar_Some testing_count elements Classification.fcc_elements
              _ "FCC" "green" true 1 (Hcol 0)) as (b1 & Hb1 & ? & ? & ? & ? & ? & ?).
  destruct (BarChart.bar_Some testing_count elements Classification.fcc_elements
              _ "BCC" "red" false 1 (Hcol 1)) as (b2 & Hb2 & ? & ? & ? & ? & ? & ?).
  destruct (BarChart.bar_Some testing_count elements Classification.fcc_elements
              _ "HCP" "red" false 1 (Hcol 2)) as (b3 & Hb3 & ? & ? & ? & ? & ? & ?).
  destruct (BarChart.bar_Some testing_count elements Classification.bcc_elements
              _ "FCC" "red" false 2 (Hcol 0)) as (b4 & Hb4 & ? & ? & ? & ? & ? & ?).
  destruct (BarChart.bar_Some testing_count elements Classification.bcc_elements
              _ "BCC" "green" true 2 (Hcol 1)) as (b5 & Hb5 & ? & ? & ? & ? & ? & ?).
  destruct (BarChart.bar_Some testing_count elements Classification.bcc_elements
              _ "HCP" "red" false 2 (Hcol 2)) as (b6 & Hb6 & ? & ? & ? & ? & ? & ?).
  destruct (BarChart.bar_Some testing_count elements Classification.hcp_elements
              _ "FCC" "red" false 3 (Hcol 0)) as (b7 & Hb7 & ? & ? & ? & ? & ? & ?).
  destruct (BarChart.bar_Some testing_count elements Classification.hcp_elements
              _ "BCC" "red" false 3 (Hcol 1)) as (b8 & Hb8 & ? & ? & ? & ? & ? & ?).
  destruct (BarChart.bar_Some testing_count elements Classification.hcp_elements
              _ "HCP" "green" true 3 (Hcol 2)) as (b9 & Hb9 & ? & ? & ? & ? & ? & ?).
  exists (BarChart.score 0 <$> all_predictions),
    (BarChart.score 1 <$> all_predictions),
    (BarChart.score 2 <$> all_predictions),
    [b1; b2; b3; b4; b5; b6; b7; b8; b9].
  split; [by apply BarChart.class_predictions_Some|].
  split.
  { intros i scores Hi. rewrite !list_lookup_fmap, Hi. simpl.
    rewrite Forall_lookup in Hscores. specialize (Hscores i scores Hi).
    by destruct scores as [|f [|b [|h [|? ?]]]]. }
  unfold BarChart.figure. rewrite BarChart.class_predictions_Some by done.
  cbn [mbind option_bind]. unfold BarChart.traces. cbn zeta.
  rewrite Hb1, Hb2, Hb3, Hb4, Hb5, Hb6, Hb7, Hb8, Hb9.
  split; [reflexivity|].
  repeat (constructor; [split_and!; try done; by eapply Hstars|]).
  constructor.
Qed.

(** X15, on silver, barium and beryllium, the last of them testing. *)
Lemma bars_paired_by_element_witness :
  ∃ fig,
    BarChart.figure 1 ["Ag"; "Ba"; "Be"]
      [[0.7; 0.2; 0.1]; [0.1; 0.8; 0.1]; [0.2; 0.2; 0.6]]%float = Some fig
    ∧ length fig = 9.
Proof.
  assert (Forall (λ scores : list float, length scores = 3)
            [[0.7; 0.2; 0.1]; [0.1; 0.8; 0.1]; [0.2; 0.2; 0.6]]%float) as Hscores
    by (repeat constructor).
  assert (NoDup ["Ag"; "Ba"; "Be"]) as Hnodup
    by (apply (bool_decide_unpack _); by vm_compute).
  destruct (bars_paired_by_element 1 ["Ag"; "Ba"; "Be"]
              [[0.7; 0.2; 0.1]; [0.1; 0.8; 0.1]; [0.2; 0.2; 0.6]]%float
              eq_refl Hscores Hnodup (Nat.lt_0_succ 0))
    as (F & B & H & fig & _ & _ & Hfig & Hbars).
  exists fig. split; [exact Hfig|].
  by rewrite (Forall2_length _ _ _ Hbars).
Defined.
